(** * Blog_with_users: a shallow embedding of [main.py]

    The Flask application of [main.py] is embedded as pure functions over
    an explicit database and session.  Every view function of the source
    becomes a function from a request and a world (database + session
    cookie) to a result (response, new world, number of calls to
    [db.session.commit()], flashed messages).

    What lives outside [main.py] is a parameter of the development:
    - [werkzeug.security] (the two password functions) is the class
      [Security];
    - [forms.py] (the validators of the four form classes) is the class
      [Forms];
    - the clock and the random salt are inputs carried by the request. *)

From stdpp Require Import gmap strings list fin_maps.

Open Scope Z_scope.

(** ** The three tables (main.py, lines 45-86)

    A table is a finite map from the integer primary key [id] to the
    remaining columns.  The foreign keys [author_id] and [blogpost_id]
    are declared without [nullable=False], so they are [option Z]. *)

Module BlogPost.
Record row := Row {
  author_id : option Z;
  title : string;
  subtitle : string;
  date : string;
  body : string;
  img_url : string
}.
End BlogPost.

Module User.
Record row := Row {
  email : string;
  password : string;
  name : string
}.
End User.

Module Comment.
Record row := Row {
  author_id : option Z;
  text : string;
  blogpost_id : option Z
}.
End Comment.

(** The fields are named after [__tablename__]. *)
Record Database := Db {
  blog_posts : gmap Z BlogPost.row;
  user : gmap Z User.row;
  comments : gmap Z Comment.row
}.

(** [db.create_all()] on a new store. *)
Definition create_all : Database := Db ∅ ∅ ∅.

(** ** Queries *)

Section Query.
Context {A : Type}.

(** [Model.query.get(k)] *)
Definition query_get (k : Z) (t : gmap Z A) : option A := t !! k.

(** [Model.query.all()]: the rows with their keys; SQL fixes no order. *)
Definition query_all (t : gmap Z A) : list (Z * A) := map_to_list t.

(** The key given to an inserted row: one more than the largest key in
    use, 1 in an empty table (an SQLite [INTEGER PRIMARY KEY]). *)
Definition max_id (t : gmap Z A) : Z := foldr Z.max 0 (map_to_list t).*1.
Definition next_id (t : gmap Z A) : Z := 1 + max_id t.

End Query.

(** [User.query.filter_by(email=e)] and [.first()] *)
Definition filter_by_email (e : string) (t : gmap Z User.row) : list (Z * User.row) :=
  filter (λ r, User.email r.2 = e) (query_all t).

Definition first {A : Type} (rows : list A) : option A := head rows.

(** ** Integrity constraints checked by the store when it writes

    [email] and [title] are declared [unique=True]; a write that would
    break one of them makes [db.session.commit()] raise and nothing is
    stored. *)

Definition email_in_use (e : string) (t : gmap Z User.row) : bool :=
  bool_decide (Exists (λ r, User.email r.2 = e) (map_to_list t)).

Definition title_in_use (s : string) (t : gmap Z BlogPost.row) : bool :=
  bool_decide (Exists (λ r, BlogPost.title r.2 = s) (map_to_list t)).

(** Deleting a post whose [comments] relationship has no delete cascade:
    the mapper de-associates the post's comments by setting their
    [blogpost_id] to NULL. *)
Definition detach (post_id : Z) (c : Comment.row) : Comment.row :=
  if bool_decide (Comment.blogpost_id c = Some post_id)
  then Comment.Row (Comment.author_id c) (Comment.text c) None
  else c.

(** ** Requests *)

Inductive Method := GET | POST.

Module RegisterForm.
Record data := Data { email : string; password : string; name : string }.
End RegisterForm.

Module LoginForm.
Record data := Data { email : string; password : string }.
End LoginForm.

Module CommentForm.
Record data := Data { body : string }.
End CommentForm.

Module CreatePostForm.
Record data := Data {
  title : string;
  subtitle : string;
  img_url : string;
  author : string;
  body : string
}.
End CreatePostForm.

(** What a view reads from its surroundings: the HTTP method, the
    submitted fields as each form class sees them, the random source of
    the salt, and [date.today().strftime("%B %d, %Y")]. *)
Record Request := Req {
  method : Method;
  register_form : RegisterForm.data;
  login_form : LoginForm.data;
  comment_form : CommentForm.data;
  post_form : CreatePostForm.data;
  entropy : N;
  today : string
}.

(** [forms.py]: the validators of the form classes. *)
Class Forms := {
  validate_register : RegisterForm.data → bool;
  validate_login : LoginForm.data → bool;
  validate_comment : CommentForm.data → bool;
  validate_post : CreatePostForm.data → bool
}.

(** [werkzeug.security]: password, method, salt length and random source
    to the stored string; stored string and password to the verdict. *)
Class Security := {
  generate_password_hash : string → string → nat → N → string;
  check_password_hash : string → string → bool
}.

(** [form.validate_on_submit()] *)
Definition is_submitted (req : Request) : bool :=
  match method req with POST => true | GET => false end.

Definition validate_on_submit (req : Request) (valid : bool) : bool :=
  is_submitted req && valid.

(** ** Responses *)

(** [url_for(...)] as used by the redirects of the source. *)
Inductive Url :=
| url_login
| url_get_all_posts (logged_in : bool)
| url_show_post (post_id : Z).

(** [render_template(name, ...)] with the keyword arguments it is given. *)
Inductive Page :=
| index_html (all_posts : list (Z * BlogPost.row)) (logged_in : bool)
| register_html (form : RegisterForm.data) (logged_in : bool)
| login_html (form : LoginForm.data) (logged_in : bool)
| post_html (post : option BlogPost.row) (form : CommentForm.data) (logged_in : bool)
| about_html
| contact_html
| make_post_html (form : CreatePostForm.data) (logged_in : bool).

Inductive Exception :=
| AttributeError
| UnmappedInstanceError
| IntegrityError.

Inductive Response :=
| Render (page : Page)
| Redirect (to : Url)
| Abort (code : Z)
| Raise (exc : Exception).

(** ** Worlds and results *)

(** [session] is the user id kept in the session cookie by flask_login. *)
Record World := Wd {
  db : Database;
  session : option Z
}.

Record Result := Res {
  response : Response;
  after : World;
  commits : nat;
  flashed : list string
}.

Definition View : Type := Request → World → Result.

(** A response that touches nothing. *)
Definition reply (r : Response) (w : World) : Result := Res r w 0 [].

Definition reply_flash (msg : string) (r : Response) (w : World) : Result :=
  Res r w 0 [msg].

(** [load_user] (lines 127-129) applied to the id of the cookie:
    [current_user] is the row found, the anonymous user otherwise. *)
Definition load_user (user_id : Z) (d : Database) : option User.row :=
  query_get user_id (user d).

Definition current_user (w : World) : option (Z * User.row) :=
  uid ← session w; u ← load_user uid (db w); Some (uid, u).

Definition is_authenticated (w : World) : bool :=
  bool_decide (is_Some (current_user w)).

(** [login_user(u)] and [logout_user()] *)
Definition login_user (uid : Z) (w : World) : World := Wd (db w) (Some uid).
Definition logout_user (w : World) : World := Wd (db w) None.

(** ** Writing to the store: [db.session.add(...)] / [db.session.delete(...)]
    followed by [db.session.commit()]

    [None] is a commit that raised: nothing is stored. *)

Definition add_user (u : User.row) (d : Database) : option (Z * Database) :=
  if email_in_use (User.email u) (user d) then None
  else
    let uid := next_id (user d) in
    Some (uid, Db (blog_posts d) (<[uid := u]> (user d)) (comments d)).

Definition add_post (p : BlogPost.row) (d : Database) : option (Z * Database) :=
  if title_in_use (BlogPost.title p) (blog_posts d) then None
  else
    let pid := next_id (blog_posts d) in
    Some (pid, Db (<[pid := p]> (blog_posts d)) (user d) (comments d)).

Definition add_comment (c : Comment.row) (d : Database) : Z * Database :=
  let cid := next_id (comments d) in
  (cid, Db (blog_posts d) (user d) (<[cid := c]> (comments d))).

(** The post [post_id] and its author [aid] were modified in the session:
    [old] is the stored post, [p] and [a] are the rows as modified.  Only
    changed columns are written, so the title is checked when it changed. *)
Definition update_post (post_id : Z) (old p : BlogPost.row) (aid : Z) (a : User.row)
    (d : Database) : option Database :=
  if bool_decide (BlogPost.title p ≠ BlogPost.title old)
     && title_in_use (BlogPost.title p) (blog_posts d)
  then None
  else Some (Db (<[post_id := p]> (blog_posts d)) (<[aid := a]> (user d)) (comments d)).

Definition remove_post (post_id : Z) (d : Database) : Database :=
  Db (delete post_id (blog_posts d)) (user d) (detach post_id <$> comments d).

(** ** The decorators *)

(** [flask_login.login_required]: no [login_view] is configured, so
    [login_manager.unauthorized()] is [abort(401)]. *)
Definition login_required (f : View) : View := λ req w,
  if is_authenticated w then f req w else reply (Abort 401) w.

(** [admin_only] (lines 92-98); the anonymous user has no [id]. *)
Definition admin_only (f : View) : View := λ req w,
  match current_user w with
  | None => reply (Raise AttributeError) w
  | Some (uid, _) =>
    if bool_decide (uid ≠ 1) then reply (Abort 403) w else f req w
  end.

(** ** The views *)

Section Views.
Context `{!Forms, !Security}.

(** lines 100-103 *)
Definition get_all_posts : View := λ req w,
  let posts := query_all (blog_posts (db w)) in
  reply (Render (index_html posts (is_authenticated w))) w.

(** lines 106-124 *)
Definition register : View := λ req w,
  let form := register_form req in
  if validate_on_submit req (validate_register form) then
    let email := RegisterForm.email form in
    match first (filter_by_email email (user (db w))) with
    | Some _ =>
      reply_flash "You are already registered. Please log in" (Redirect url_login) w
    | None =>
      let unhashed_password := RegisterForm.password form in
      let new_user :=
        User.Row email
          (generate_password_hash unhashed_password "pbkdf2:sha256" 8 (entropy req))
          (RegisterForm.name form) in
      match add_user new_user (db w) with
      | None => Res (Raise IntegrityError) w 1 []
      | Some (uid, d) =>
        Res (Redirect (url_get_all_posts true)) (login_user uid (Wd d (session w))) 1 []
      end
    end
  else reply (Render (register_html form (is_authenticated w))) w.

(** lines 132-150; [user.password] on no user raises the [AttributeError]
    that the [except] clause turns into a redirect. *)
Definition login : View := λ req w,
  let form := login_form req in
  if validate_on_submit req (validate_login form) then
    let login_email := LoginForm.email form in
    let login_password := LoginForm.password form in
    match first (filter_by_email login_email (user (db w))) with
    | Some (uid, u) =>
      if check_password_hash (User.password u) login_password
      then Res (Redirect (url_get_all_posts true)) (login_user uid w) 0 []
      else reply_flash "Invalid password, please try again" (Redirect url_login) w
    | None =>
      reply_flash "No such email exists, please try again" (Redirect url_login) w
    end
  else reply (Render (login_html form (is_authenticated w))) w.

(** lines 153-156 *)
Definition logout : View := λ req w,
  Res (Redirect (url_get_all_posts false)) (logout_user w) 0 [].

(** lines 159-177 *)
Definition show_post (post_id : Z) : View := λ req w,
  let requested_post := query_get post_id (blog_posts (db w)) in
  let form := comment_form req in
  if validate_on_submit req (validate_comment form) then
    match current_user w with
    | Some (uid, _) =>
      let new_comment :=
        Comment.Row (Some uid) (CommentForm.body form)
          (match requested_post with Some _ => Some post_id | None => None end) in
      let w' := Wd (add_comment new_comment (db w)).2 (session w) in
      Res (Render (post_html requested_post form (is_authenticated w'))) w' 1 []
    | None =>
      reply_flash "You have to be logged in to leave a comment. Please log in"
        (Redirect url_login) w
    end
  else reply (Render (post_html requested_post form (is_authenticated w))) w.

(** lines 180-187 *)
Definition about : View := λ req w, reply (Render about_html) w.
Definition contact : View := λ req w, reply (Render contact_html) w.

(** lines 193-207, the function under the decorators *)
Definition add_new_post_body : View := λ req w,
  let form := post_form req in
  if validate_on_submit req (validate_post form) then
    match current_user w with
    | None => reply (Raise AttributeError) w
    | Some (uid, _) =>
      let new_post :=
        BlogPost.Row (Some uid) (CreatePostForm.title form)
          (CreatePostForm.subtitle form) (today req)
          (CreatePostForm.body form) (CreatePostForm.img_url form) in
      match add_post new_post (db w) with
      | None => Res (Raise IntegrityError) w 1 []
      | Some (_, d) => Res (Redirect (url_get_all_posts false)) (Wd d (session w)) 1 []
      end
    end
  else reply (Render (make_post_html form true)) w.

(** [post.author]: the user row that [author_id] points to. *)
Definition author_of (p : BlogPost.row) (d : Database) : option (Z * User.row) :=
  aid ← BlogPost.author_id p; a ← query_get aid (user d); Some (aid, a).

(** lines 213-231, the function under the decorators.  The form is
    built with the post's values as defaults: a submitted form holds the
    submitted fields, an unsubmitted one the defaults. *)
Definition edit_post_body (post_id : Z) : View := λ req w,
  match query_get post_id (blog_posts (db w)) with
  | None => reply (Raise AttributeError) w
  | Some post =>
    match author_of post (db w) with
    | None => reply (Raise AttributeError) w
    | Some (aid, author) =>
      let edit_form :=
        if is_submitted req then post_form req
        else CreatePostForm.Data (BlogPost.title post) (BlogPost.subtitle post)
               (BlogPost.img_url post) (User.name author) (BlogPost.body post) in
      if validate_on_submit req (validate_post edit_form) then
        let post' :=
          BlogPost.Row (BlogPost.author_id post) (CreatePostForm.title edit_form)
            (CreatePostForm.subtitle edit_form) (BlogPost.date post)
            (CreatePostForm.body edit_form) (CreatePostForm.img_url edit_form) in
        let author' :=
          User.Row (User.email author) (User.password author)
            (CreatePostForm.author edit_form) in
        match update_post post_id post post' aid author' (db w) with
        | None => Res (Raise IntegrityError) w 1 []
        | Some d => Res (Redirect (url_show_post post_id)) (Wd d (session w)) 1 []
        end
      else reply (Render (make_post_html edit_form true)) w
    end
  end.

(** lines 237-241, the function under the decorators;
    [db.session.delete(None)] raises. *)
Definition delete_post_body (post_id : Z) : View := λ req w,
  match query_get post_id (blog_posts (db w)) with
  | None => reply (Raise UnmappedInstanceError) w
  | Some _ =>
    Res (Redirect (url_get_all_posts true))
      (Wd (remove_post post_id (db w)) (session w)) 1 []
  end.

(** The names as [main.py] binds them: [@login_required @admin_only]. *)
Definition add_new_post : View := login_required (admin_only add_new_post_body).
Definition edit_post (post_id : Z) : View :=
  login_required (admin_only (edit_post_body post_id)).
Definition delete_post (post_id : Z) : View :=
  login_required (admin_only (delete_post_body post_id)).

End Views.

(** ** Routing: the [@app.route] table

    A rule without [methods] answers GET only; [<int:post_id>] matches
    unsigned integers only. *)

Inductive Endpoint :=
| ep_get_all_posts
| ep_register
| ep_login
| ep_logout
| ep_show_post (post_id : Z)
| ep_about
| ep_contact
| ep_add_new_post
| ep_edit_post (post_id : Z)
| ep_delete_post (post_id : Z).

Definition accepts_post (ep : Endpoint) : bool :=
  match ep with
  | ep_register | ep_login | ep_show_post _ | ep_add_new_post | ep_edit_post _ => true
  | _ => false
  end.

Definition url_matches (ep : Endpoint) : bool :=
  match ep with
  | ep_show_post post_id | ep_edit_post post_id | ep_delete_post post_id =>
    bool_decide (0 ≤ post_id)
  | _ => true
  end.

Section Dispatch.
Context `{!Forms, !Security}.

Definition view_function (ep : Endpoint) : View :=
  match ep with
  | ep_get_all_posts => get_all_posts
  | ep_register => register
  | ep_login => login
  | ep_logout => logout
  | ep_show_post post_id => show_post post_id
  | ep_about => about
  | ep_contact => contact
  | ep_add_new_post => add_new_post
  | ep_edit_post post_id => edit_post post_id
  | ep_delete_post post_id => delete_post post_id
  end.

Definition dispatch_request (ep : Endpoint) : View := λ req w,
  if negb (url_matches ep) then reply (Abort 404) w
  else if is_submitted req && negb (accepts_post ep) then reply (Abort 405) w
  else view_function ep req w.

(** [steps d d']: the application takes the store from [d] to [d'] in
    some number of requests, whatever the requests and whatever session
    each one carries. *)
Inductive steps (d : Database) : Database → Prop :=
| steps_refl : steps d d
| steps_step d' ep req s :
    steps d d' → steps d (db (after (dispatch_request ep req (Wd d' s)))).

(** The stores the application can produce from the empty one. *)
Definition reachable (d : Database) : Prop := steps create_all d.

End Dispatch.

(** ** Predicates used to state the properties *)

(** Some row of the [user] table has the email [e]. *)
Definition email_registered (e : string) (t : gmap Z User.row) : Prop :=
  ∃ k u, t !! k = Some u ∧ User.email u = e.

(** The [unique=True] of the [email] column, as a property of a table. *)
Definition unique_emails (t : gmap Z User.row) : Prop :=
  ∀ i j u v, t !! i = Some u → t !! j = Some v → User.email u = User.email v → i = j.

(** [write d d'] lists the changes a single request can make to the
    store: none, or one of the five commits of [main.py]. *)
Inductive write (d : Database) : Database → Prop :=
| write_nothing : write d d
| write_user u :
    ¬ email_registered (User.email u) (user d) →
    write d (Db (blog_posts d) (<[next_id (user d) := u]> (user d)) (comments d))
| write_comment uid c :
    is_Some (user d !! uid) →
    Comment.author_id c = Some uid →
    (∀ pid, Comment.blogpost_id c = Some pid → is_Some (blog_posts d !! pid)) →
    write d (Db (blog_posts d) (user d) (<[next_id (comments d) := c]> (comments d)))
| write_post p :
    BlogPost.author_id p = Some 1 →
    is_Some (user d !! 1) →
    write d (Db (<[next_id (blog_posts d) := p]> (blog_posts d)) (user d) (comments d))
| write_edit post_id p p' aid a a' :
    blog_posts d !! post_id = Some p →
    BlogPost.author_id p = Some aid →
    user d !! aid = Some a →
    BlogPost.author_id p' = BlogPost.author_id p →
    BlogPost.date p' = BlogPost.date p →
    User.email a' = User.email a →
    User.password a' = User.password a →
    write d (Db (<[post_id := p']> (blog_posts d)) (<[aid := a']> (user d)) (comments d))
| write_delete post_id :
    is_Some (blog_posts d !! post_id) →
    write d (remove_post post_id d).

(** The foreign keys of lines 50, 78 and 83: a key that is not NULL is
    the key of a row of the table it refers to. *)
Record references_ok (d : Database) : Prop := {
  comment_author_ok k c a :
    comments d !! k = Some c → Comment.author_id c = Some a → is_Some (user d !! a);
  comment_blogpost_ok k c p :
    comments d !! k = Some c → Comment.blogpost_id c = Some p →
    is_Some (blog_posts d !! p);
  post_author_ok k p a :
    blog_posts d !! k = Some p → BlogPost.author_id p = Some a → is_Some (user d !! a)
}.

(** The row [u] is still there in [d'], up to its name. *)
Definition same_account (u u' : User.row) : Prop :=
  User.email u' = User.email u ∧ User.password u' = User.password u.

(** Every comment and every post names its author. *)
Record authored (d : Database) : Prop := {
  comment_authored k c : comments d !! k = Some c → is_Some (Comment.author_id c);
  post_authored k p : blog_posts d !! k = Some p → is_Some (BlogPost.author_id p)
}.

(** Either nothing was committed and the store is as it was, or there
    was exactly one call to [db.session.commit()]. *)
Definition one_commit (w : World) (r : Result) : Prop :=
  (commits r = 0%nat ∧ db (after r) = db w) ∨ commits r = 1%nat.

(** The requester is not the authenticated user with id 1. *)
Definition not_admin (w : World) : Prop := ∀ u, current_user w ≠ Some (1, u).

Section Guards.
Context {forms : Forms}.

(** The guards of the mutating operations: invalid form, duplicate
    email, unauthenticated commenter, non-admin requester. *)
Definition guard_fails (ep : Endpoint) (req : Request) (w : World) : Prop :=
  match ep with
  | ep_register =>
    validate_on_submit req (validate_register (register_form req)) = false
    ∨ email_registered (RegisterForm.email (register_form req)) (user (db w))
  | ep_show_post _ =>
    validate_on_submit req (validate_comment (comment_form req)) = false
    ∨ is_authenticated w = false
  | ep_add_new_post | ep_edit_post _ =>
    validate_on_submit req (validate_post (post_form req)) = false
    ∨ not_admin w
  | ep_delete_post _ => not_admin w
  | _ => False
  end.

End Guards.

(** Logged in as the user [uid], or not logged in. *)
Definition logged_in_as (w : World) : option Z := fst <$> current_user w.

(** The result keeps the session cookie and the keys of [user]. *)
Definition keeps_login (w : World) (r : Result) : Prop :=
  session (after r) = session w ∧
  ∀ k, is_Some (user (db (after r)) !! k) ↔ is_Some (user (db w) !! k).

(** Some row of [blog_posts] has the title [s]. *)
Definition title_registered (s : string) (t : gmap Z BlogPost.row) : Prop :=
  ∃ k p, t !! k = Some p ∧ BlogPost.title p = s.

(** The [unique=True] of the [title] column, as a property of a table. *)
Definition unique_titles (t : gmap Z BlogPost.row) : Prop :=
  ∀ i j p q, t !! i = Some p → t !! j = Some q → BlogPost.title p = BlogPost.title q → i = j.

(** [post_write t t']: what a single request can do to [blog_posts]. *)
Inductive post_write (t : gmap Z BlogPost.row) : gmap Z BlogPost.row → Prop :=
| post_write_nothing : post_write t t
| post_write_insert p :
    ¬ title_registered (BlogPost.title p) t →
    post_write t (<[next_id t := p]> t)
| post_write_update post_id old p :
    t !! post_id = Some old →
    BlogPost.title p = BlogPost.title old ∨ ¬ title_registered (BlogPost.title p) t →
    post_write t (<[post_id := p]> t)
| post_write_delete post_id : post_write t (delete post_id t).

(** The views without [login_required] and [admin_only]. *)
Definition public (ep : Endpoint) : bool :=
  match ep with
  | ep_add_new_post | ep_edit_post _ | ep_delete_post _ => false
  | _ => true
  end.

(** The session cookie names no user, or a user of the store. *)
Definition session_ok (w : World) : Prop :=
  ∀ uid, session w = Some uid → is_Some (user (db w) !! uid).

(** Every key of the table is at least 1. *)
Definition keys_positive {A : Type} (t : gmap Z A) : Prop :=
  ∀ k x, t !! k = Some x → 1 ≤ k.

(** [stored] has the shape of a salted hash: the method with its
    parameters, a salt of the asked length and the digest, joined by
    [$]. *)
Definition salted_hash (method : string) (salt_length : nat) (stored : string) : Prop :=
  ∃ params salt digest,
    String.length salt = salt_length ∧
    stored = method +:+ params +:+ "$" +:+ salt +:+ "$" +:+ digest.

(** Modelled from the spec: [werkzeug.security] is a library outside
    [main.py]; what it returns is taken from the spec's words for it, a
    salted hash by the asked method and never the plaintext itself. *)
Record password_contract (S : Security) : Prop := {
  hash_is_salted p m n r : salted_hash m n (generate_password_hash p m n r);
  hash_is_not_plaintext p m n r : generate_password_hash p m n r ≠ p
}.

(** ** A stand-in for [forms.py] and [werkzeug.security]

    Used only to run the views on concrete requests: every form
    validates, and the stored string is the method and the password
    joined by [$]. *)

Module Sample.

#[export] Instance forms : Forms := {|
  validate_register _ := true;
  validate_login _ := true;
  validate_comment _ := true;
  validate_post _ := true
|}.

#[export] Instance security : Security := {|
  generate_password_hash p m _ _ := m +:+ "$" +:+ p;
  check_password_hash h p := bool_decide (h = "pbkdf2:sha256$" +:+ p)
|}.

(** A second stand-in for [werkzeug.security], with a salt: the stored
    string is the method, a parameter, a salt of the asked length and
    the password behind a mark, joined by [$]. *)
Fixpoint salt_of (n : nat) : string :=
  match n with
  | O => ""
  | S k => "s" +:+ salt_of k
  end.

Definition salted : Security := {|
  generate_password_hash p m n _ := m +:+ ":1" +:+ "$" +:+ salt_of n +:+ "$" +:+ "#" +:+ p;
  check_password_hash h p := bool_decide (h = "pbkdf2:sha256:1$ssssssss$#" +:+ p)
|}.

(** A request: method, then the fields that matter to the view called. *)
Definition blank : Request :=
  Req GET (RegisterForm.Data "" "" "") (LoginForm.Data "" "") (CommentForm.Data "")
    (CreatePostForm.Data "" "" "" "" "") 0%N "".

Definition register_request (email password name : string) : Request :=
  Req POST (RegisterForm.Data email password name) (login_form blank)
    (comment_form blank) (post_form blank) 0%N "".

Definition login_request (email password : string) : Request :=
  Req POST (register_form blank) (LoginForm.Data email password)
    (comment_form blank) (post_form blank) 0%N "".

Definition comment_request (body : string) : Request :=
  Req POST (register_form blank) (login_form blank) (CommentForm.Data body)
    (post_form blank) 0%N "".

Definition post_request (title subtitle img_url author body : string) : Request :=
  Req POST (register_form blank) (login_form blank) (comment_form blank)
    (CreatePostForm.Data title subtitle img_url author body) 0%N "August 01, 2021".

(** Two users, one post by the first, one comment on it by the second. *)
Definition ann : User.row := User.Row "ann@example.com" "pbkdf2:sha256$secret" "Ann".
Definition bob : User.row := User.Row "bob@example.com" "pbkdf2:sha256$hunter2" "Bob".
Definition hello : BlogPost.row :=
  BlogPost.Row (Some 1) "Hello" "First post" "August 01, 2021" "Welcome" "http://img/1.png".
Definition nice : Comment.row := Comment.Row (Some 2) "Nice" (Some 1).

Definition store : Database :=
  Db {[ 1 := hello ]} (<[ 2 := bob ]> {[ 1 := ann ]}) {[ 1 := nice ]}.

Definition anonymous : World := Wd store None.
Definition as_ann : World := Wd store (Some 1).
Definition as_bob : World := Wd store (Some 2).

End Sample.

(** * Properties *)

(** ** Keys and queries *)

Section QueryFacts.
Context {A : Type}.
Implicit Types t : gmap Z A.

Lemma foldr_max_bound (l : list Z) (k : Z) : k ∈ l → k ≤ foldr Z.max 0 l.
Proof.
  induction l as [|x l IH]; intros Hk.
  - by apply elem_of_nil in Hk.
  - apply elem_of_cons in Hk as [->|Hk]; simpl; [lia|].
    specialize (IH Hk). lia.
Qed.

Lemma max_id_bound t k x : t !! k = Some x → k ≤ max_id t.
Proof.
  intros Hk. apply foldr_max_bound.
  apply list_elem_of_fmap. exists (k, x). split; [done|].
  by apply elem_of_map_to_list.
Qed.

Lemma next_id_fresh t : t !! next_id t = None.
Proof.
  destruct (t !! next_id t) as [x|] eqn:E; [|done].
  apply max_id_bound in E. unfold next_id in E. lia.
Qed.

Lemma next_id_positive t : 1 ≤ next_id t.
Proof.
  unfold next_id, max_id.
  assert (0 ≤ foldr Z.max 0 (map_to_list t).*1); [|lia].
  induction ((map_to_list t).*1); simpl; lia.
Qed.

Lemma query_all_complete t k x : (k, x) ∈ query_all t ↔ t !! k = Some x.
Proof. apply elem_of_map_to_list. Qed.

End QueryFacts.

Section EmailFacts.
Implicit Types t : gmap Z User.row.

Lemma email_in_use_true e t : email_in_use e t = true ↔ email_registered e t.
Proof.
  unfold email_in_use, email_registered.
  rewrite bool_decide_eq_true, Exists_exists. split.
  - intros [[k u] [Hin He]]. exists k, u. split; [|done].
    by apply elem_of_map_to_list.
  - intros (k & u & Hk & He). exists (k, u). split; [|done].
    by apply elem_of_map_to_list.
Qed.

Lemma email_in_use_false e t : email_in_use e t = false ↔ ¬ email_registered e t.
Proof.
  rewrite <- email_in_use_true. destruct (email_in_use e t); naive_solver.
Qed.

Lemma first_filter_by_email_Some e t k u :
  first (filter_by_email e t) = Some (k, u) → t !! k = Some u ∧ User.email u = e.
Proof.
  intros H. apply head_Some_elem_of in H.
  apply list_elem_of_filter in H as [He Hin].
  split; [by apply elem_of_map_to_list | done].
Qed.

Lemma first_filter_by_email_None e t :
  first (filter_by_email e t) = None ↔ ¬ email_registered e t.
Proof.
  unfold first. rewrite head_None. split.
  - intros Hnil (k & u & Hk & He).
    eapply (filter_nil_not_elem_of _ _ (k, u)); [exact Hnil | exact He |].
    by apply elem_of_map_to_list.
  - intros Hno. destruct (filter_by_email e t) as [|[k u] l] eqn:E; [done|].
    exfalso. apply Hno. exists k, u.
    apply (first_filter_by_email_Some e t). unfold first. by rewrite E.
Qed.

Lemma first_filter_by_email_registered e t :
  email_registered e t → is_Some (first (filter_by_email e t)).
Proof.
  intros H. destruct (first (filter_by_email e t)) eqn:E; [by eexists|].
  by apply first_filter_by_email_None in E.
Qed.

Lemma first_filter_by_email_unique t k u :
  unique_emails t → t !! k = Some u →
  first (filter_by_email (User.email u) t) = Some (k, u).
Proof.
  intros Huniq Hk.
  destruct (first_filter_by_email_registered (User.email u) t) as [[k' u'] E].
  { by exists k, u. }
  rewrite E. apply first_filter_by_email_Some in E as [Hk' He].
  assert (k' = k) as -> by (eapply Huniq; eauto).
  congruence.
Qed.

Lemma unique_emails_empty : unique_emails ∅.
Proof. intros i j u v Hi. by rewrite lookup_empty in Hi. Qed.

Lemma unique_emails_insert_new t k u :
  unique_emails t → t !! k = None → ¬ email_registered (User.email u) t →
  unique_emails (<[k := u]> t).
Proof.
  intros Huniq Hfresh Hno i j a b Hi Hj Hab.
  destruct (decide (i = k)) as [->|Hik], (decide (j = k)) as [->|Hjk]; [done|..].
  - rewrite lookup_insert_eq in Hi. rewrite lookup_insert_ne in Hj by done.
    simplify_eq. exfalso. apply Hno. by exists j, b.
  - rewrite lookup_insert_eq in Hj. rewrite lookup_insert_ne in Hi by done.
    simplify_eq. exfalso. apply Hno. by exists i, a.
  - rewrite lookup_insert_ne in Hi, Hj by done. eauto.
Qed.

Lemma unique_emails_rename t k u u' :
  unique_emails t → t !! k = Some u → User.email u' = User.email u →
  unique_emails (<[k := u']> t).
Proof.
  intros Huniq Hk He i j a b Hi Hj Hab.
  destruct (decide (i = k)) as [->|Hik], (decide (j = k)) as [->|Hjk]; [done|..].
  - rewrite lookup_insert_eq in Hi. rewrite lookup_insert_ne in Hj by done.
    simplify_eq. apply (Huniq k j u b); congruence.
  - rewrite lookup_insert_eq in Hj. rewrite lookup_insert_ne in Hi by done.
    simplify_eq. apply (Huniq i k a u); congruence.
  - rewrite lookup_insert_ne in Hi, Hj by done. eauto.
Qed.

End EmailFacts.

(** ** The current user and the two decorators *)

Lemma current_user_Some w uid u :
  current_user w = Some (uid, u) ↔ session w = Some uid ∧ user (db w) !! uid = Some u.
Proof.
  unfold current_user, load_user, query_get. split.
  - destruct (session w) as [k|]; simpl; [|done].
    destruct (user (db w) !! k) eqn:E; simpl; [|done].
    intros [= -> ->]. done.
  - intros [-> Hu]. simpl. by rewrite Hu.
Qed.

Lemma is_authenticated_true w :
  is_authenticated w = true ↔ ∃ uid u, current_user w = Some (uid, u).
Proof.
  unfold is_authenticated. rewrite bool_decide_eq_true. split.
  - intros [[uid u] E]. by exists uid, u.
  - intros (uid & u & E). by eexists.
Qed.

Lemma is_authenticated_false w : is_authenticated w = false ↔ current_user w = None.
Proof.
  unfold is_authenticated. rewrite bool_decide_eq_false.
  destruct (current_user w); [|done].
  split; [intros []; by eexists | done].
Qed.

Lemma guard_anonymous (body : View) req w :
  is_authenticated w = false →
  login_required (admin_only body) req w = reply (Abort 401) w.
Proof. intros H. unfold login_required. by rewrite H. Qed.

Lemma guard_not_admin (body : View) req w uid u :
  current_user w = Some (uid, u) → uid ≠ 1 →
  login_required (admin_only body) req w = reply (Abort 403) w.
Proof.
  intros Hu Hne. unfold login_required, admin_only.
  assert (is_authenticated w = true) as -> by (apply is_authenticated_true; eauto).
  rewrite Hu. by rewrite bool_decide_eq_true_2.
Qed.

Lemma guard_admin (body : View) req w u :
  current_user w = Some (1, u) →
  login_required (admin_only body) req w = body req w.
Proof.
  intros Hu. unfold login_required, admin_only.
  assert (is_authenticated w = true) as -> by (apply is_authenticated_true; eauto).
  rewrite Hu. rewrite bool_decide_eq_false_2; [done|]. by intros [].
Qed.

(** When the requester is not the user 1, the function under the
    decorators plays no part in the result. *)
Lemma guard_skips_body (body body' : View) req w :
  (∀ u, current_user w ≠ Some (1, u)) →
  login_required (admin_only body) req w = login_required (admin_only body') req w.
Proof.
  intros Hno. destruct (current_user w) as [[uid u]|] eqn:E.
  - assert (uid ≠ 1) by (intros ->; by apply (Hno u)).
    by rewrite !(guard_not_admin _ _ _ uid u).
  - apply is_authenticated_false in E. by rewrite !guard_anonymous.
Qed.

Section AdminOnly.
Context {forms : Forms} {security : Security}.

(** C1. For every request to [add_new_post], [edit_post] or
    [delete_post]: the view is a function under [login_required] and
    [admin_only], and unless the requester is an authenticated user whose
    id is 1 that function plays no part in the result; an unauthenticated
    requester is turned away by the login requirement (401), an
    authenticated user with another id gets the 403 abort, and in both
    cases nothing is committed and the world, so the [blog_posts] table,
    is unchanged. *)
Theorem admin_only_posts (v : View) (req : Request) (w : World) :
  v = add_new_post ∨ (∃ post_id, v = edit_post post_id)
    ∨ (∃ post_id, v = delete_post post_id) →
  (∃ body, v = login_required (admin_only body) ∧
     ∀ body', (∀ u, current_user w ≠ Some (1, u)) →
       v req w = login_required (admin_only body') req w) ∧
  (is_authenticated w = false →
     response (v req w) = Abort 401 ∧ commits (v req w) = 0%nat ∧
     after (v req w) = w ∧ blog_posts (db (after (v req w))) = blog_posts (db w)) ∧
  (∀ uid u, current_user w = Some (uid, u) → uid ≠ 1 →
     response (v req w) = Abort 403 ∧ commits (v req w) = 0%nat ∧
     after (v req w) = w ∧ blog_posts (db (after (v req w))) = blog_posts (db w)).
Proof.
  intros Hv.
  assert (∃ body, v = login_required (admin_only body)) as [body ->].
  { destruct Hv as [->|[[post_id ->]|[post_id ->]]]; by eexists. }
  split; [|split].
  - exists body. split; [done|]. intros body' Hno. by apply guard_skips_body.
  - intros Hanon. rewrite guard_anonymous by done. by repeat split.
  - intros uid u Hu Hne. rewrite (guard_not_admin _ _ _ uid u) by done.
    by repeat split.
Qed.

End AdminOnly.

Section AdminOnlyWitness.
Import Sample.

Lemma admin_only_posts_witness :
  response (delete_post 1 blank as_bob) = Abort 403 ∧
  blog_posts (db (after (delete_post 1 blank as_bob))) = blog_posts store.
Proof.
  destruct (admin_only_posts (delete_post 1) blank as_bob) as (_ & _ & H).
  { right; right. by exists 1. }
  destruct (H 2 bob) as (Hr & _ & _ & Hp); [reflexivity | lia |].
  split; [exact Hr | exact Hp].
Defined.

End AdminOnlyWitness.

(** ** Commenting *)

Section Commenting.
Context {forms : Forms} {security : Security}.

(** C2. When a comment form is validly submitted on [show_post]: for an
    authenticated requester exactly one row is added to [comments], under
    a key that was free, with the submitted body as text, the current
    user as author and the requested post as blogpost (no blogpost when
    no post has the requested id), and nothing else changes; for an
    unauthenticated requester nothing changes and the response is a
    redirect to the login page. *)
Theorem comment_submitted (post_id : Z) (req : Request) (w : World) :
  validate_on_submit req (validate_comment (comment_form req)) = true →
  let r := show_post post_id req w in
  (∀ uid u, current_user w = Some (uid, u) →
     let new_comment :=
       Comment.Row (Some uid) (CommentForm.body (comment_form req))
         (match blog_posts (db w) !! post_id with
          | Some _ => Some post_id
          | None => None
          end) in
     ∃ cid, comments (db w) !! cid = None ∧
       comments (db (after r)) = <[cid := new_comment]> (comments (db w)) ∧
       size (comments (db (after r))) = S (size (comments (db w))) ∧
       blog_posts (db (after r)) = blog_posts (db w) ∧
       user (db (after r)) = user (db w) ∧
       session (after r) = session w ∧
       commits r = 1%nat) ∧
  (is_authenticated w = false →
     after r = w ∧ commits r = 0%nat ∧ response r = Redirect url_login).
Proof.
  intros Hvalid r. subst r. unfold show_post. rewrite Hvalid. split.
  - intros uid u Hu. rewrite Hu. simpl. unfold query_get.
    exists (next_id (comments (db w))).
    pose proof (next_id_fresh (comments (db w))) as Hfresh.
    repeat split; [done|]. by apply map_size_insert_None.
  - intros Hanon. apply is_authenticated_false in Hanon. by rewrite Hanon.
Qed.

End Commenting.

Section CommentingWitness.
Import Sample.

Lemma comment_submitted_witness :
  commits (show_post 1 (comment_request "Thanks") as_bob) = 1%nat ∧
  response (show_post 1 (comment_request "Thanks") anonymous) = Redirect url_login.
Proof.
  split.
  - destruct (comment_submitted 1 (comment_request "Thanks") as_bob) as [H _];
      [reflexivity|].
    destruct (H 2 bob) as (cid & _ & _ & _ & _ & _ & _ & Hc); [reflexivity|].
    exact Hc.
  - destruct (comment_submitted 1 (comment_request "Thanks") anonymous) as [_ H];
      [reflexivity|].
    destruct H as (_ & _ & Hr); [reflexivity|]. exact Hr.
Defined.

End CommentingWitness.

(** ** What a request can write *)

Section Writes.
Context {forms : Forms} {security : Security}.

Lemma database_eta d : Db (blog_posts d) (user d) (comments d) = d.
Proof. by destruct d. Qed.

Lemma author_of_Some p d aid a :
  author_of p d = Some (aid, a) ↔ BlogPost.author_id p = Some aid ∧ user d !! aid = Some a.
Proof.
  unfold author_of, query_get. split.
  - destruct (BlogPost.author_id p) as [k|]; simpl; [|done].
    destruct (user d !! k) eqn:E; simpl; [|done]. by intros [= -> ->].
  - intros [-> Ha]. simpl. by rewrite Ha.
Qed.

Lemma register_write req w : write (db w) (db (after (register req w))).
Proof.
  unfold register.
  destruct (validate_on_submit _ _); [|constructor].
  destruct (first _) as [?|] eqn:Hfirst; [constructor|].
  unfold add_user.
  destruct (email_in_use _ _) eqn:Hused; [constructor|]. simpl.
  apply (write_user (db w) (User.Row _ _ _)). simpl.
  by apply email_in_use_false.
Qed.

Lemma login_write req w : write (db w) (db (after (login req w))).
Proof.
  unfold login.
  destruct (validate_on_submit _ _); [|constructor].
  destruct (first _) as [[uid u]|]; [|constructor].
  destruct (check_password_hash _ _); constructor.
Qed.

Lemma show_post_write post_id req w :
  write (db w) (db (after (show_post post_id req w))).
Proof.
  unfold show_post.
  destruct (validate_on_submit _ _); [|constructor].
  destruct (current_user w) as [[uid u]|] eqn:Hu; [|constructor].
  apply current_user_Some in Hu as [_ Hu]. simpl.
  apply (write_comment (db w) uid (Comment.Row _ _ _)); simpl; [by eexists|done|].
  unfold query_get. intros pid.
  destruct (blog_posts (db w) !! post_id) eqn:E; [|done].
  intros [= <-]. by eexists.
Qed.

Lemma add_new_post_body_write req w u :
  current_user w = Some (1, u) →
  write (db w) (db (after (add_new_post_body req w))).
Proof.
  intros Hu. unfold add_new_post_body.
  destruct (validate_on_submit _ _); [|constructor].
  rewrite Hu. unfold add_post.
  destruct (title_in_use _ _); [constructor|]. simpl.
  apply current_user_Some in Hu as [_ Hu].
  apply (write_post (db w) (BlogPost.Row _ _ _ _ _ _)); simpl; [done|by eexists].
Qed.

Lemma edit_post_body_write post_id req w :
  write (db w) (db (after (edit_post_body post_id req w))).
Proof.
  unfold edit_post_body, query_get.
  destruct (blog_posts (db w) !! post_id) as [p|] eqn:Hp; [|constructor].
  destruct (author_of p (db w)) as [[aid a]|] eqn:Ha; [|constructor].
  apply author_of_Some in Ha as [Haid Ha].
  destruct (validate_on_submit _ _); [|constructor].
  unfold update_post.
  destruct (_ && _); [constructor|]. simpl.
  by eapply (write_edit (db w) post_id p (BlogPost.Row _ _ _ _ _ _) aid a (User.Row _ _ _)).
Qed.

Lemma delete_post_body_write post_id req w :
  write (db w) (db (after (delete_post_body post_id req w))).
Proof.
  unfold delete_post_body, query_get.
  destruct (blog_posts (db w) !! post_id) as [p|] eqn:Hp; [|constructor].
  simpl. apply write_delete. by eexists.
Qed.

Lemma guard_write (body : View) req w :
  (∀ u, current_user w = Some (1, u) → write (db w) (db (after (body req w)))) →
  write (db w) (db (after (login_required (admin_only body) req w))).
Proof.
  intros Hbody. destruct (current_user w) as [[uid u]|] eqn:Hu.
  - destruct (decide (uid = 1)) as [->|Hne].
    + rewrite (guard_admin _ _ _ u) by done. eauto.
    + rewrite (guard_not_admin _ _ _ uid u) by done. constructor.
  - apply is_authenticated_false in Hu. rewrite guard_anonymous by done. constructor.
Qed.

Lemma view_function_write ep req w :
  write (db w) (db (after (view_function ep req w))).
Proof.
  destruct ep; simpl;
    [constructor | apply register_write | apply login_write | constructor
    | apply show_post_write | constructor | constructor | ..];
    apply guard_write; intros u Hu;
    eauto using add_new_post_body_write, edit_post_body_write, delete_post_body_write.
Qed.

Lemma dispatch_request_write ep req w :
  write (db w) (db (after (dispatch_request ep req w))).
Proof.
  unfold dispatch_request.
  destruct (negb (url_matches ep)); [constructor|].
  destruct (_ && _); [constructor|]. apply view_function_write.
Qed.

End Writes.

(** ** Invariants of the store *)

Lemma is_Some_insert_mono {A} (m : gmap Z A) i x k :
  is_Some (m !! k) → is_Some (<[i := x]> m !! k).
Proof. rewrite lookup_insert_is_Some. destruct (decide (i = k)); eauto. Qed.

Lemma write_unique_emails d d' :
  write d d' → unique_emails (user d) → unique_emails (user d').
Proof.
  intros Hw Huniq. destruct Hw; simpl; try done.
  - apply unique_emails_insert_new; [done | apply next_id_fresh | done].
  - by eapply unique_emails_rename.
Qed.

Lemma write_same_account d d' k u :
  write d d' → user d !! k = Some u →
  ∃ u', user d' !! k = Some u' ∧ same_account u u'.
Proof.
  intros Hw Hk. destruct Hw; simpl; try (by exists u).
  - exists u. split; [|done]. rewrite lookup_insert_ne; [done|].
    intros <-. by rewrite next_id_fresh in Hk.
  - destruct (decide (aid = k)) as [->|Hne].
    + exists a'. rewrite lookup_insert_eq. split; [done|].
      assert (a = u) as <- by congruence. done.
    + exists u. by rewrite lookup_insert_ne.
Qed.

Lemma write_references_ok d d' : write d d' → references_ok d → references_ok d'.
Proof.
  intros Hw [Hca Hcb Hpa]. destruct Hw; [done|..]; split; simpl.
  - intros k c a Hk Ha. apply is_Some_insert_mono. eauto.
  - eauto.
  - intros k p a Hk Ha. apply is_Some_insert_mono. eauto.
  - intros k c' a Hk Ha.
    apply lookup_insert_Some in Hk as [[_ <-]|[_ Hk]]; [|eauto].
    by simplify_eq.
  - intros k c' p Hk Hp.
    apply lookup_insert_Some in Hk as [[_ <-]|[_ Hk]]; eauto.
  - eauto.
  - eauto.
  - intros k c p' Hk Hp. apply is_Some_insert_mono. eauto.
  - intros k p' a Hk Ha.
    apply lookup_insert_Some in Hk as [[_ <-]|[_ Hk]]; [|eauto].
    by simplify_eq.
  - intros k c b Hk Hb. apply is_Some_insert_mono. eauto.
  - intros k c q Hk Hq. apply is_Some_insert_mono. eauto.
  - intros k q b Hk Hb. apply is_Some_insert_mono.
    apply lookup_insert_Some in Hk as [[_ <-]|[_ Hk]]; [|eauto].
    eapply Hpa; [eauto|congruence].
  - intros k c' a Hk Ha. rewrite lookup_fmap in Hk.
    destruct (comments d !! k) as [c|] eqn:Hc; [|done]. injection Hk as <-.
    apply (Hca k c a Hc). unfold detach in Ha. by case_bool_decide.
  - intros k c' q Hk Hq. rewrite lookup_fmap in Hk.
    destruct (comments d !! k) as [c|] eqn:Hc; [|done]. injection Hk as <-.
    unfold detach in Hq. case_bool_decide as Hpid; [done|].
    rewrite lookup_delete_ne by congruence. eauto.
  - intros k q a Hk Ha. apply lookup_delete_Some in Hk as [_ Hk]. eauto.
Qed.

Lemma create_all_references_ok : references_ok create_all.
Proof. split; intros ???; simpl; by rewrite lookup_empty. Qed.

Section Steps.
Context {forms : Forms} {security : Security}.

Lemma steps_trans d1 d2 d3 : steps d1 d2 → steps d2 d3 → steps d1 d3.
Proof. intros H12 H23. induction H23; [done|]. by apply steps_step. Qed.

Lemma steps_unique_emails d d' :
  steps d d' → unique_emails (user d) → unique_emails (user d').
Proof.
  induction 1 as [|d' ep req s _ IH]; [done|]. intros Hu.
  eapply write_unique_emails; [apply (dispatch_request_write ep req (Wd d' s))|].
  by apply IH.
Qed.

Lemma steps_same_account d d' k u :
  steps d d' → user d !! k = Some u →
  ∃ u', user d' !! k = Some u' ∧ same_account u u'.
Proof.
  induction 1 as [|d' ep req s _ IH]; intros Hk; [by exists u|].
  destruct (IH Hk) as (u1 & Hk1 & He1 & Hp1).
  destruct (write_same_account _ _ k u1 (dispatch_request_write ep req (Wd d' s)) Hk1)
    as (u2 & Hk2 & He2 & Hp2).
  exists u2. split; [done|]. split; congruence.
Qed.

Lemma steps_references_ok d d' : steps d d' → references_ok d → references_ok d'.
Proof.
  induction 1 as [|d' ep req s _ IH]; [done|]. intros Hd.
  eapply write_references_ok; [apply (dispatch_request_write ep req (Wd d' s))|].
  by apply IH.
Qed.

Lemma reachable_unique_emails d : reachable d → unique_emails (user d).
Proof. intros H. apply (steps_unique_emails _ _ H), unique_emails_empty. Qed.

End Steps.

(** ** Registration and login *)

Section Passwords.
Context {forms : Forms} {security : Security}.

(** What a successful registration stores. *)
Lemma register_success req w :
  response (register req w) = Redirect (url_get_all_posts true) →
  let form := register_form req in
  let uid := next_id (user (db w)) in
  let new_user :=
    User.Row (RegisterForm.email form)
      (generate_password_hash (RegisterForm.password form) "pbkdf2:sha256" 8 (entropy req))
      (RegisterForm.name form) in
  ¬ email_registered (RegisterForm.email form) (user (db w)) ∧
  register req w =
    Res (Redirect (url_get_all_posts true))
      (Wd (Db (blog_posts (db w)) (<[uid := new_user]> (user (db w))) (comments (db w)))
          (Some uid)) 1 [].
Proof.
  unfold register, add_user.
  destruct (validate_on_submit _ _); [|done].
  destruct (first _) as [?|] eqn:Hfirst; [done|].
  apply first_filter_by_email_None in Hfirst. simpl.
  destruct (email_in_use _ _); [done|]. done.
Qed.

(** A valid login form whose email is that of the row [u] under the key
    [uid], in a store with unique emails. *)
Lemma login_registered req w uid u :
  unique_emails (user (db w)) →
  user (db w) !! uid = Some u →
  validate_on_submit req (validate_login (login_form req)) = true →
  LoginForm.email (login_form req) = User.email u →
  login req w =
    if check_password_hash (User.password u) (LoginForm.password (login_form req))
    then Res (Redirect (url_get_all_posts true)) (Wd (db w) (Some uid)) 0 []
    else reply_flash "Invalid password, please try again" (Redirect url_login) w.
Proof.
  intros Huniq Hu Hvalid Hemail. unfold login. rewrite Hvalid, Hemail.
  by rewrite (first_filter_by_email_unique _ uid u).
Qed.

(** C3, as amended.  On successful registration the stored password
    field is a salted pbkdf2:sha256 hash of the submitted plaintext,
    never the plaintext itself: it is the string
    [generate_password_hash] returns for the plaintext with method
    pbkdf2:sha256 and salt length 8, in a new row of [user].  For every
    later login attempt with that email, in every store the application
    reaches from there, the attempt sets the session to that user exactly
    when the submitted password verifies against that stored hash; a
    mismatching password leaves the session as it was and redirects back
    to login. *)
Theorem register_then_login (req : Request) (w : World) :
  password_contract security →
  reachable (db w) →
  response (register req w) = Redirect (url_get_all_posts true) →
  let form := register_form req in
  let stored :=
    generate_password_hash (RegisterForm.password form) "pbkdf2:sha256" 8 (entropy req) in
  salted_hash "pbkdf2:sha256" 8 stored ∧
  stored ≠ RegisterForm.password form ∧
  ∃ uid,
    user (db w) !! uid = None ∧
    user (db (after (register req w))) !! uid
      = Some (User.Row (RegisterForm.email form) stored (RegisterForm.name form)) ∧
    ∀ d' req' s',
      steps (db (after (register req w))) d' →
      validate_on_submit req' (validate_login (login_form req')) = true →
      LoginForm.email (login_form req') = RegisterForm.email form →
      let r := login req' (Wd d' s') in
      let verifies := check_password_hash stored (LoginForm.password (login_form req')) in
      (∃ u', user d' !! uid = Some u' ∧ User.password u' = stored) ∧
      (verifies = true →
         session (after r) = Some uid ∧ db (after r) = d' ∧
         response r = Redirect (url_get_all_posts true)) ∧
      (verifies = false →
         after r = Wd d' s' ∧ response r = Redirect url_login).
Proof.
  intros [Hsalted Hhides] Hreach Hok form stored.
  split; [apply Hsalted|]. split; [apply Hhides|].
  destruct (register_success req w Hok) as [Hnew Hreg].
  exists (next_id (user (db w))). split; [apply next_id_fresh|].
  rewrite Hreg. simpl. split; [by rewrite lookup_insert_eq|].
  intros d' req' s' Hsteps Hvalid Hemail.
  set (d1 := Db _ _ _) in Hsteps.
  assert (unique_emails (user d')) as Huniq.
  { apply (steps_unique_emails d1 d' Hsteps). simpl.
    apply unique_emails_insert_new;
      [by apply reachable_unique_emails | apply next_id_fresh | done]. }
  destruct (steps_same_account d1 d' (next_id (user (db w)))
              (User.Row (RegisterForm.email form) stored (RegisterForm.name form)) Hsteps)
    as (u' & Hu' & He & Hp).
  { simpl. by rewrite lookup_insert_eq. }
  simpl in He, Hp.
  split; [by exists u'|].
  rewrite (login_registered req' (Wd d' s') _ u' Huniq Hu' Hvalid) by congruence.
  rewrite Hp. split; intros ->; by repeat split.
Qed.

End Passwords.

Section PasswordsWitness.
Import Sample.

Lemma length_append (a b : string) :
  String.length (a +:+ b) = (String.length a + String.length b)%nat.
Proof. induction a as [|c a IH]; simpl; [done|]. by rewrite IH. Qed.

Lemma salted_contract : password_contract salted.
Proof.
  split.
  - intros p m n r. exists ":1", (salt_of n), ("#" +:+ p). split; [|done].
    induction n as [|n IH]; [done|].
    change (salt_of (S n)) with ("s" +:+ salt_of n). rewrite length_append, IH. done.
  - intros p m n r Heq. apply (f_equal String.length) in Heq. simpl in Heq.
    rewrite !length_append in Heq. simpl in Heq. lia.
Qed.

Lemma register_then_login_witness :
  let registered :=
    after (@register forms salted (register_request "eve@example.com" "pw" "Eve")
             (Wd create_all None)) in
  user (db registered) !! 1
    = Some (User.Row "eve@example.com" "pbkdf2:sha256:1$ssssssss$#pw" "Eve") ∧
  session (after (@login forms salted (login_request "eve@example.com" "pw")
                    (Wd (db registered) None))) = Some 1 ∧
  session (after (@login forms salted (login_request "eve@example.com" "guess")
                    (Wd (db registered) None))) = None.
Proof.
  intros registered.
  destruct (@register_then_login forms salted
              (register_request "eve@example.com" "pw" "Eve") (Wd create_all None))
    as (_ & _ & uid & _ & Hrow & Hlogin);
    [apply salted_contract | apply steps_refl | reflexivity |].
  split; [reflexivity|]. split.
  - destruct (Hlogin (db registered) (login_request "eve@example.com" "pw") None)
      as (_ & Hyes & _); [apply steps_refl | reflexivity | reflexivity |].
    destruct Hyes as (Hs & _ & _); [reflexivity|]. reflexivity.
  - destruct (Hlogin (db registered) (login_request "eve@example.com" "guess") None)
      as (_ & _ & Hno); [apply steps_refl | reflexivity | reflexivity |].
    destruct Hno as [Hafter _]; [reflexivity|]. by rewrite Hafter.
Defined.

(** C3 as stated fails: right after registering, the session is logged
    in; a login attempt with the registered email and a password that
    does not verify redirects back to login and leaves the session logged
    in, not logged out. *)
Lemma mismatch_keeps_session_counterexample :
  let registered :=
    after (register (register_request "eve@example.com" "pw" "Eve") (Wd create_all None)) in
  let attempt := login (login_request "eve@example.com" "guess") registered in
  user (db registered) !! 1
    = Some (User.Row "eve@example.com" "pbkdf2:sha256$pw" "Eve") ∧
  check_password_hash "pbkdf2:sha256$pw" "guess" = false ∧
  response attempt = Redirect url_login ∧
  session (after attempt) = Some 1 ∧
  is_authenticated (after attempt) = true.
Proof. by vm_compute. Qed.

End PasswordsWitness.

Lemma validate_on_submit_submitted req valid :
  validate_on_submit req valid = true → is_submitted req = true.
Proof. unfold validate_on_submit. by destruct (is_submitted req). Qed.

(** ** Titles in use *)

Section TitleFacts.
Implicit Types t : gmap Z BlogPost.row.

Lemma title_in_use_true s t : title_in_use s t = true ↔ title_registered s t.
Proof.
  unfold title_in_use, title_registered.
  rewrite bool_decide_eq_true, Exists_exists. split.
  - intros [[k p] [Hin Hs]]. exists k, p. split; [|done].
    by apply elem_of_map_to_list.
  - intros (k & p & Hk & Hs). exists (k, p). split; [|done].
    by apply elem_of_map_to_list.
Qed.

Lemma title_in_use_false s t : title_in_use s t = false ↔ ¬ title_registered s t.
Proof.
  rewrite <- title_in_use_true. destruct (title_in_use s t); naive_solver.
Qed.

Lemma post_write_unique_titles t t' :
  post_write t t' → unique_titles t → unique_titles t'.
Proof.
  intros Hw Huniq. destruct Hw as [|p Hnew|post_id old p Hold Htitle|post_id]; [done|..].
  - intros i j a b Hi Hj Hab.
    apply lookup_insert_Some in Hi as [[<- <-]|[Hni Hi]];
      apply lookup_insert_Some in Hj as [[<- <-]|[Hnj Hj]]; [done|..].
    + exfalso. apply Hnew. by exists j, b.
    + exfalso. apply Hnew. by exists i, a.
    + eauto.
  - intros i j a b Hi Hj Hab.
    apply lookup_insert_Some in Hi as [[<- <-]|[Hni Hi]];
      apply lookup_insert_Some in Hj as [[<- <-]|[Hnj Hj]]; [done|..].
    + destruct Htitle as [Hsame|Hnew].
      * apply (Huniq post_id j old b); congruence.
      * exfalso. apply Hnew. by exists j, b.
    + destruct Htitle as [Hsame|Hnew].
      * apply (Huniq i post_id a old); congruence.
      * exfalso. apply Hnew. by exists i, a.
    + eauto.
  - intros i j a b Hi Hj Hab.
    apply lookup_delete_Some in Hi as [_ Hi]. apply lookup_delete_Some in Hj as [_ Hj].
    eauto.
Qed.

End TitleFacts.

(** ** One commit per request *)

Section Commits.
Context {forms : Forms} {security : Security}.

Lemma reply_one_commit r w : one_commit w (reply r w).
Proof. by left. Qed.

Lemma reply_flash_one_commit msg r w : one_commit w (reply_flash msg r w).
Proof. by left. Qed.

Lemma guard_one_commit (body : View) req w :
  one_commit w (body req w) →
  one_commit w (login_required (admin_only body) req w).
Proof.
  intros Hbody. unfold login_required, admin_only.
  destruct (is_authenticated w); [|by left].
  destruct (current_user w) as [[uid u]|]; [|by left].
  by case_bool_decide; [left|].
Qed.

Lemma guard_not_admin_reply (body : View) req w :
  not_admin w → ∃ resp, login_required (admin_only body) req w = reply resp w.
Proof.
  intros Hno. destruct (current_user w) as [[uid u]|] eqn:Hu.
  - exists (Abort 403). apply (guard_not_admin _ _ _ uid u); [done|].
    intros ->. by apply (Hno u).
  - exists (Abort 401). apply guard_anonymous. by apply is_authenticated_false.
Qed.

Lemma edit_form_validate_on_submit req (defaults : CreatePostForm.data) :
  validate_on_submit req
    (validate_post (if is_submitted req then post_form req else defaults))
  = validate_on_submit req (validate_post (post_form req)).
Proof. unfold validate_on_submit. by destruct (is_submitted req). Qed.

Lemma view_function_one_commit ep req w : one_commit w (view_function ep req w).
Proof.
  destruct ep; simpl; try apply guard_one_commit; try (by left).
  - unfold register, add_user.
    destruct (validate_on_submit _ _); [|by left].
    destruct (first _); [by left|].
    destruct (email_in_use _ _); by right.
  - unfold login.
    destruct (validate_on_submit _ _); [|by left].
    destruct (first _) as [[uid u]|]; [|by left].
    destruct (check_password_hash _ _); by left.
  - unfold show_post.
    destruct (validate_on_submit _ _); [|by left].
    destruct (current_user w) as [[uid u]|]; [by right|by left].
  - unfold add_new_post_body, add_post.
    destruct (validate_on_submit _ _); [|by left].
    destruct (current_user w) as [[uid u]|]; [|by left].
    destruct (title_in_use _ _); by right.
  - unfold edit_post_body, update_post.
    destruct (query_get _ _); [|by left].
    destruct (author_of _ _) as [[aid a]|]; [|by left].
    destruct (validate_on_submit _ _); [|by left].
    destruct (_ && _); by right.
  - unfold delete_post_body.
    destruct (query_get _ _); [by right|by left].
Qed.

Lemma guard_quiet (body : View) req w :
  (db (after (body req w)) = db w ∧ commits (body req w) = 0%nat) →
  db (after (login_required (admin_only body) req w)) = db w
  ∧ commits (login_required (admin_only body) req w) = 0%nat.
Proof.
  intros Hbody. unfold login_required, admin_only.
  destruct (is_authenticated w); [|done].
  destruct (current_user w) as [[uid u]|]; [|done].
  by case_bool_decide.
Qed.

Lemma guard_not_admin_quiet (body : View) req w :
  not_admin w →
  db (after (login_required (admin_only body) req w)) = db w
  ∧ commits (login_required (admin_only body) req w) = 0%nat.
Proof. intros Hno. by destruct (guard_not_admin_reply body req w Hno) as [resp ->]. Qed.

Lemma view_function_guard_fails ep req w :
  guard_fails ep req w →
  db (after (view_function ep req w)) = db w ∧ commits (view_function ep req w) = 0%nat.
Proof.
  destruct ep; simpl; try done.
  - intros [Hinvalid|Hdup]; unfold register.
    + by rewrite Hinvalid.
    + destruct (validate_on_submit _ _); [|done].
      by destruct (first_filter_by_email_registered _ _ Hdup) as [? ->].
  - intros [Hinvalid|Hanon]; unfold show_post.
    + by rewrite Hinvalid.
    + apply is_authenticated_false in Hanon. rewrite Hanon.
      by destruct (validate_on_submit _ _).
  - intros [Hinvalid|Hno]; [|by apply guard_not_admin_quiet].
    apply guard_quiet. unfold add_new_post_body. by rewrite Hinvalid.
  - intros [Hinvalid|Hno]; [|by apply guard_not_admin_quiet].
    apply guard_quiet. unfold edit_post_body.
    destruct (query_get _ _); [|done].
    destruct (author_of _ _) as [[aid a]|]; [|done].
    by rewrite edit_form_validate_on_submit, Hinvalid.
  - apply guard_not_admin_quiet.
Qed.

Lemma admin_of_not_not_admin w : ¬ not_admin w → ∃ u, current_user w = Some (1, u).
Proof.
  intros Hno. destruct (current_user w) as [[uid u]|] eqn:Hu.
  - destruct (decide (uid = 1)) as [->|Hne]; [by exists u|].
    exfalso. apply Hno. intros u' Hu'. congruence.
  - exfalso. apply Hno. intros u'. congruence.
Qed.

Lemma true_of_not_false (b : bool) : b ≠ false → b = true.
Proof. by destruct b. Qed.

(** C4, as amended.  Every view makes at most one call to
    [db.session.commit()] per request, and the store changes only when
    that call was made.  When the guard of a mutating operation fails
    (invalid form, duplicate email, unauthenticated commenter, non-admin
    requester) nothing is committed and the store is unchanged.  When the
    guard passes, the operation commits its entire change in that single
    commit: the new user, the new comment, the new post, the edited post
    with its author's name, or the removal of the post with its comments
    detached; or else it raises and leaves the store unchanged: at the
    commit when the title of the new or edited post is one another post
    has, before it when [edit_post] or [delete_post] finds no post or
    [edit_post] finds no author. *)
Theorem single_commit (ep : Endpoint) (req : Request) (w : World) :
  let r := view_function ep req w in
  let d := db w in
  (commits r ≤ 1)%nat ∧
  (db (after r) ≠ d → commits r = 1%nat) ∧
  (guard_fails ep req w → db (after r) = d ∧ commits r = 0%nat) ∧
  (¬ guard_fails ep req w →
   match ep with
   | ep_register =>
     let form := register_form req in
     let new_user :=
       User.Row (RegisterForm.email form)
         (generate_password_hash (RegisterForm.password form) "pbkdf2:sha256" 8
            (entropy req))
         (RegisterForm.name form) in
     commits r = 1%nat ∧
     db (after r)
     = Db (blog_posts d) (<[next_id (user d) := new_user]> (user d)) (comments d)
   | ep_show_post post_id =>
     ∃ uid,
       logged_in_as w = Some uid ∧
       commits r = 1%nat ∧
       db (after r)
       = Db (blog_posts d) (user d)
           (<[next_id (comments d) :=
                Comment.Row (Some uid) (CommentForm.body (comment_form req))
                  (match blog_posts d !! post_id with
                   | Some _ => Some post_id
                   | None => None
                   end)]> (comments d))
   | ep_add_new_post =>
     let form := post_form req in
     let new_post :=
       BlogPost.Row (Some 1) (CreatePostForm.title form) (CreatePostForm.subtitle form)
         (today req) (CreatePostForm.body form) (CreatePostForm.img_url form) in
     (title_registered (CreatePostForm.title form) (blog_posts d) →
      response r = Raise IntegrityError ∧ commits r = 1%nat ∧ db (after r) = d) ∧
     (¬ title_registered (CreatePostForm.title form) (blog_posts d) →
      commits r = 1%nat ∧
      db (after r)
      = Db (<[next_id (blog_posts d) := new_post]> (blog_posts d)) (user d) (comments d))
   | ep_edit_post post_id =>
     let form := post_form req in
     (blog_posts d !! post_id = None →
      response r = Raise AttributeError ∧ commits r = 0%nat ∧ db (after r) = d) ∧
     (∀ post, blog_posts d !! post_id = Some post →
        (author_of post d = None →
         response r = Raise AttributeError ∧ commits r = 0%nat ∧ db (after r) = d) ∧
        (∀ aid author, author_of post d = Some (aid, author) →
           (CreatePostForm.title form ≠ BlogPost.title post →
            title_registered (CreatePostForm.title form) (blog_posts d) →
            response r = Raise IntegrityError ∧ commits r = 1%nat ∧ db (after r) = d) ∧
           (CreatePostForm.title form = BlogPost.title post
            ∨ ¬ title_registered (CreatePostForm.title form) (blog_posts d) →
            commits r = 1%nat ∧
            db (after r)
            = Db (<[post_id :=
                      BlogPost.Row (BlogPost.author_id post) (CreatePostForm.title form)
                        (CreatePostForm.subtitle form) (BlogPost.date post)
                        (CreatePostForm.body form) (CreatePostForm.img_url form)]>
                    (blog_posts d))
                 (<[aid :=
                      User.Row (User.email author) (User.password author)
                        (CreatePostForm.author form)]> (user d))
                 (comments d))))
   | ep_delete_post post_id =>
     (blog_posts d !! post_id = None →
      response r = Raise UnmappedInstanceError ∧ commits r = 0%nat ∧ db (after r) = d) ∧
     (is_Some (blog_posts d !! post_id) →
      commits r = 1%nat ∧
      blog_posts (db (after r)) = delete post_id (blog_posts d) ∧
      user (db (after r)) = user d ∧
      comments (db (after r))
      = (λ c, if bool_decide (Comment.blogpost_id c = Some post_id)
              then Comment.Row (Comment.author_id c) (Comment.text c) None
              else c) <$> comments d)
   | _ => commits r = 0%nat ∧ db (after r) = d
   end).
Proof.
  intros r d. subst r d. split; [|split; [|split]].
  - destruct (view_function_one_commit ep req w) as [[Hc _] | Hc]; rewrite Hc; lia.
  - destruct (view_function_one_commit ep req w) as [[_ Hd] | Hc]; [|done].
    intros Hne. by rewrite Hd in Hne.
  - apply view_function_guard_fails.
  - destruct ep; simpl; intros Hpass; try done.
    + unfold register, add_user.
      destruct (validate_on_submit _ _) eqn:Hvalid; [|exfalso; by apply Hpass; left].
      assert (¬ email_registered (RegisterForm.email (register_form req)) (user (db w)))
        as Hnew by (intros ?; apply Hpass; by right).
      rewrite (proj2 (first_filter_by_email_None _ _) Hnew). simpl.
      apply email_in_use_false in Hnew. by rewrite Hnew.
    + unfold login.
      destruct (validate_on_submit _ _); [|done].
      destruct (first _) as [[uid u]|]; [|done].
      by destruct (check_password_hash _ _).
    + unfold show_post.
      destruct (validate_on_submit _ _) eqn:Hvalid; [|exfalso; by apply Hpass; left].
      destruct (current_user w) as [[uid u]|] eqn:Hu.
      * exists uid. unfold logged_in_as. by rewrite Hu.
      * exfalso. apply Hpass. right. by apply is_authenticated_false.
    + destruct (admin_of_not_not_admin w) as [admin Hadmin];
        [intros ?; apply Hpass; by right|].
      assert (validate_on_submit req (validate_post (post_form req)) = true) as Hvalid
        by (apply true_of_not_false; intros ?; apply Hpass; by left).
      unfold add_new_post. rewrite (guard_admin _ _ _ admin) by done.
      unfold add_new_post_body, add_post. rewrite Hvalid, Hadmin. simpl. split.
      * intros Hused. apply title_in_use_true in Hused. by rewrite Hused.
      * intros Hfree. apply title_in_use_false in Hfree. by rewrite Hfree.
    + destruct (admin_of_not_not_admin w) as [admin Hadmin];
        [intros ?; apply Hpass; by right|].
      assert (validate_on_submit req (validate_post (post_form req)) = true) as Hvalid
        by (apply true_of_not_false; intros ?; apply Hpass; by left).
      unfold edit_post. rewrite (guard_admin _ _ _ admin) by done.
      unfold edit_post_body, query_get. split.
      * by intros ->.
      * intros post ->. split; [by intros ->|].
        intros aid author ->.
        rewrite edit_form_validate_on_submit, Hvalid.
        rewrite (validate_on_submit_submitted _ _ Hvalid).
        unfold update_post. simpl. split.
        -- intros Hchanged Hused. apply title_in_use_true in Hused.
           by rewrite Hused, bool_decide_eq_true_2.
        -- intros [Hsame|Hfree].
           ++ by rewrite bool_decide_eq_false_2 by (by intros ?).
           ++ apply title_in_use_false in Hfree. by rewrite Hfree, andb_false_r.
    + destruct (admin_of_not_not_admin w) as [admin Hadmin]; [done|].
      unfold delete_post. rewrite (guard_admin _ _ _ admin) by done.
      unfold delete_post_body, query_get. split.
      * by intros ->.
      * by intros [post ->].
Qed.

End Commits.

Section CommitsWitness.
Import Sample.

Lemma single_commit_witness :
  (db (after (register (register_request "ann@example.com" "x" "Ann2") anonymous)) = store ∧
   commits (register (register_request "ann@example.com" "x" "Ann2") anonymous) = 0%nat) ∧
  (commits (delete_post 1 blank as_ann) = 1%nat ∧
   blog_posts (db (after (delete_post 1 blank as_ann))) = delete 1 (blog_posts store) ∧
   comments (db (after (delete_post 1 blank as_ann))) !! 1
   = Some (Comment.Row (Some 2) "Nice" None)).
Proof.
  split.
  - destruct (single_commit ep_register (register_request "ann@example.com" "x" "Ann2")
                anonymous) as (_ & _ & H & _).
    apply H. right. exists 1, ann. split; reflexivity.
  - destruct (single_commit (ep_delete_post 1) blank as_ann) as (_ & _ & _ & H).
    destruct H as [_ H]; [intros Hno; by apply (Hno ann)|].
    destruct H as (Hc & Hp & _ & Hcs); [by eexists|].
    split; [exact Hc|]. split; [exact Hp|].
    exact (eq_trans (f_equal (λ m : gmap Z Comment.row, m !! 1) Hcs) eq_refl).
Defined.

(** C4 as stated fails: the user 1 submits a valid post form whose
    title another post has.  No guard fails, yet the commit raises and
    the store is left unchanged: the change is not committed. *)
Lemma duplicate_title_counterexample :
  let req := post_request "Hello" "Again" "http://img/2.png" "" "Text" in
  let r := add_new_post req as_ann in
  ¬ guard_fails ep_add_new_post req as_ann ∧
  response r = Raise IntegrityError ∧
  db (after r) = store ∧
  blog_posts (db (after r)) !! 2 = None.
Proof.
  repeat split. intros [Hinvalid|Hno]; [done|]. by apply (Hno ann).
Qed.

End CommitsWitness.

(** ** Reading *)

Section Reading.
Context {forms : Forms} {security : Security}.

(** C5. Reading is open to everyone: whatever the session, logged in or
    not, [get_all_posts] renders the index with the complete list of the
    rows of [blog_posts] (every row, once), and a GET of [show_post]
    renders the post page with the outcome of the lookup of the requested
    id, with no login or role check; neither touches the world. *)
Theorem reading_is_open (req : Request) (w : World) :
  let posts := query_all (blog_posts (db w)) in
  get_all_posts req w = reply (Render (index_html posts (is_authenticated w))) w ∧
  (∀ k p, (k, p) ∈ posts ↔ blog_posts (db w) !! k = Some p) ∧
  NoDup posts ∧
  (∀ post_id, method req = GET →
     show_post post_id req w
     = reply (Render (post_html (blog_posts (db w) !! post_id) (comment_form req)
                        (is_authenticated w))) w).
Proof.
  repeat split.
  - by apply query_all_complete.
  - by apply query_all_complete.
  - apply NoDup_map_to_list.
  - intros post_id Hget. unfold show_post, validate_on_submit, is_submitted.
    by rewrite Hget.
Qed.

End Reading.

Section ReadingWitness.
Import Sample.

Lemma reading_is_open_witness :
  show_post 1 blank anonymous
  = reply (Render (post_html (Some hello) (CommentForm.Data "") false)) anonymous.
Proof.
  destruct (reading_is_open blank anonymous) as (_ & _ & _ & H).
  exact (H 1 eq_refl).
Defined.

End ReadingWitness.

(** ** Referential links *)

Lemma write_authored d d' : write d d' → authored d → authored d'.
Proof.
  intros Hw [Hc Hp]. destruct Hw; [done|..]; split; simpl; eauto.
  - intros k c' Hk. apply lookup_insert_Some in Hk as [[_ <-]|[_ Hk]]; eauto.
  - intros k p' Hk. apply lookup_insert_Some in Hk as [[_ <-]|[_ Hk]]; eauto.
  - intros k q Hk. apply lookup_insert_Some in Hk as [[_ <-]|[_ Hk]]; [|eauto].
    replace (BlogPost.author_id p') with (BlogPost.author_id p) by done. eauto.
  - intros k c' Hk. rewrite lookup_fmap in Hk.
    destruct (comments d !! k) as [c|] eqn:E; [|done]. injection Hk as <-.
    unfold detach. case_bool_decide; simpl; eauto.
  - intros k q Hk. apply lookup_delete_Some in Hk as [_ Hk]. eauto.
Qed.

Section References.
Context {forms : Forms} {security : Security}.

(** C6, as amended.  The store is exactly the three tables
    [blog_posts], [user] and [comments], linked by foreign keys.  Every
    view, so every one that inserts a comment or a post, preserves the
    links: a key that is not NULL stays the key of an existing row.  In
    every store the application reaches, every comment carries an
    [author_id] that is the key of a row of [user] and a [blogpost_id]
    that is NULL or the key of a row of [blog_posts], and every post
    carries an [author_id] that is the key of a row of [user]. *)
Theorem foreign_keys_preserved :
  (∀ d d',
     blog_posts d = blog_posts d' → user d = user d' → comments d = comments d' →
     d = d') ∧
  (∀ ep req w,
     references_ok (db w) → references_ok (db (after (view_function ep req w)))) ∧
  (∀ d, reachable d →
     (∀ k c, comments d !! k = Some c →
        (∃ a, Comment.author_id c = Some a ∧ is_Some (user d !! a)) ∧
        (Comment.blogpost_id c = None
         ∨ ∃ p, Comment.blogpost_id c = Some p ∧ is_Some (blog_posts d !! p))) ∧
     (∀ k p, blog_posts d !! k = Some p →
        ∃ a, BlogPost.author_id p = Some a ∧ is_Some (user d !! a))).
Proof.
  split; [|split].
  - intros [p u c] [p' u' c']. simpl. by intros -> -> ->.
  - intros ep req w. apply write_references_ok, view_function_write.
  - intros d Hd.
    assert (authored d) as [Hc Hp].
    { induction Hd as [|d' ep req s _ IH].
      - split; intros ??; simpl; by rewrite lookup_empty.
      - eapply write_authored; [|exact IH].
        apply (dispatch_request_write ep req (Wd d' s)). }
    assert (references_ok d) as [Hca Hcb Hpa]
      by apply (steps_references_ok _ _ Hd), create_all_references_ok.
    split.
    + intros k c Hk. split.
      * destruct (Hc k c Hk) as [a Ha]. exists a. split; [done|]. by eapply Hca.
      * destruct (Comment.blogpost_id c) as [p|] eqn:Hb; [right|by left].
        exists p. split; [done|]. by eapply Hcb.
    + intros k p Hk. destruct (Hp k p Hk) as [a Ha].
      exists a. split; [done|]. by eapply Hpa.
Qed.

End References.

Section ReferencesWitness.
Import Sample.

Lemma store_references_ok : references_ok store.
Proof.
  split; simpl.
  - intros k c a Hk Ha. apply lookup_singleton_Some in Hk as [_ <-].
    injection Ha as <-. by eexists.
  - intros k c p Hk Hp. apply lookup_singleton_Some in Hk as [_ <-].
    injection Hp as <-. by eexists.
  - intros k p a Hk Ha. apply lookup_singleton_Some in Hk as [_ <-].
    injection Ha as <-. by eexists.
Qed.

Lemma commented_on_nothing :
  reachable
    (db (after (dispatch_request (ep_show_post 5) (comment_request "hi")
                  (Wd (db (after (dispatch_request ep_register
                                   (register_request "eve@example.com" "pw" "Eve")
                                   (Wd create_all None))))
                      (Some 1))))).
Proof. apply steps_step, steps_step, steps_refl. Qed.

Lemma foreign_keys_preserved_witness :
  references_ok (db (after (show_post 1 (comment_request "Thanks") as_bob))) ∧
  ∃ a, Comment.author_id (Comment.Row (Some 1) "hi" None) = Some a
       ∧ is_Some (user (db (after (dispatch_request ep_register
                                     (register_request "eve@example.com" "pw" "Eve")
                                     (Wd create_all None)))) !! a).
Proof.
  destruct foreign_keys_preserved as (_ & Hstep & Hreach). split.
  - exact (Hstep (ep_show_post 1) (comment_request "Thanks") as_bob store_references_ok).
  - destruct (Hreach _ commented_on_nothing) as [Hc _].
    exact (proj1 (Hc 1 (Comment.Row (Some 1) "hi" None) eq_refl)).
Defined.

(** C6 as stated fails: after one registration, the user comments on
    the post id 5, which no post has.  The store is reached by the
    application and its comment carries no [blogpost_id]. *)
Lemma null_blogpost_counterexample :
  let d :=
    db (after (dispatch_request (ep_show_post 5) (comment_request "hi")
                 (Wd (db (after (dispatch_request ep_register
                                  (register_request "eve@example.com" "pw" "Eve")
                                  (Wd create_all None))))
                     (Some 1)))) in
  reachable d ∧
  comments d !! 1 = Some (Comment.Row (Some 1) "hi" None) ∧
  blog_posts d = ∅.
Proof. split; [apply commented_on_nothing | by vm_compute]. Qed.

End ReferencesWitness.

(** ** The authentication state *)

Lemma logged_in_as_Some w uid :
  logged_in_as w = Some uid ↔ session w = Some uid ∧ is_Some (user (db w) !! uid).
Proof.
  unfold logged_in_as. split.
  - destruct (current_user w) as [[k u]|] eqn:E; [|done].
    intros [= <-]. apply current_user_Some in E as [? ?]. split; [done|by eexists].
  - intros [Hs [u Hu]].
    by rewrite (proj2 (current_user_Some w uid u) (conj Hs Hu)).
Qed.

Lemma keeps_login_logged_in_as w r :
  keeps_login w r → logged_in_as (after r) = logged_in_as w.
Proof.
  intros [Hs Hk].
  destruct (logged_in_as w) as [uid|] eqn:E.
  - apply logged_in_as_Some in E as [E1 E2].
    apply logged_in_as_Some. split; [congruence | by apply Hk].
  - destruct (logged_in_as (after r)) as [uid|] eqn:E'; [|done].
    apply logged_in_as_Some in E' as [E1 E2].
    assert (logged_in_as w = Some uid) as Hw; [|congruence].
    apply logged_in_as_Some. split; [congruence | by apply Hk].
Qed.

Lemma reply_keeps_login resp w : keeps_login w (reply resp w).
Proof. by split. Qed.

Lemma guard_keeps_login (body : View) req w :
  keeps_login w (body req w) →
  keeps_login w (login_required (admin_only body) req w).
Proof.
  intros Hbody. unfold login_required, admin_only.
  destruct (is_authenticated w); [|by split].
  destruct (current_user w) as [[uid u]|]; [|by split].
  by case_bool_decide; [split|].
Qed.

Section Authentication.
Context {forms : Forms} {security : Security}.

Lemma other_views_keep_login ep req w :
  ep ≠ ep_register → ep ≠ ep_login → ep ≠ ep_logout →
  keeps_login w (view_function ep req w).
Proof.
  intros Hr Hl Ho.
  destruct ep; simpl; try done; try apply guard_keeps_login; try (by split).
  - unfold show_post.
    destruct (validate_on_submit _ _); [|by split].
    destruct (current_user w) as [[uid u]|]; by split.
  - unfold add_new_post_body, add_post.
    destruct (validate_on_submit _ _); [|by split].
    destruct (current_user w) as [[uid u]|]; [|by split].
    destruct (title_in_use _ _); by split.
  - unfold edit_post_body, update_post.
    destruct (query_get _ _) as [p|]; [|by split].
    destruct (author_of _ _) as [[aid a]|] eqn:Ha; [|by split].
    apply author_of_Some in Ha as [_ Ha].
    destruct (validate_on_submit _ _); [|by split].
    destruct (_ && _); [by split|]. split; [done|]. simpl. intros k.
    rewrite lookup_insert_is_Some. split; [|destruct (decide (aid = k)); eauto].
    intros [<-|[_ ?]]; [by eexists|done].
  - unfold delete_post_body.
    destruct (query_get _ _); by split.
Qed.

Lemma login_success req w :
  response (login req w) = Redirect (url_get_all_posts true) →
  ∃ uid u,
    user (db w) !! uid = Some u ∧
    User.email u = LoginForm.email (login_form req) ∧
    check_password_hash (User.password u) (LoginForm.password (login_form req)) = true ∧
    after (login req w) = Wd (db w) (Some uid).
Proof.
  unfold login.
  destruct (validate_on_submit _ _); [|done].
  destruct (first _) as [[uid u]|] eqn:Hfirst; [|done].
  apply first_filter_by_email_Some in Hfirst as [Hu He].
  destruct (check_password_hash _ _) eqn:Hcheck; [|done].
  intros _. by exists uid, u.
Qed.

Lemma login_failure req w :
  response (login req w) ≠ Redirect (url_get_all_posts true) → after (login req w) = w.
Proof.
  unfold login.
  destruct (validate_on_submit _ _); [|done].
  destruct (first _) as [[uid u]|]; [|done].
  by destruct (check_password_hash _ _).
Qed.

Lemma register_failure req w :
  response (register req w) ≠ Redirect (url_get_all_posts true) →
  after (register req w) = w.
Proof.
  unfold register, add_user.
  destruct (validate_on_submit _ _); [|done].
  destruct (first _); [done|].
  by destruct (email_in_use _ _).
Qed.

(** C7. The authentication state is binary: the requester is
    authenticated exactly when logged in as some user, and is otherwise
    not logged in.  Only [register], [login] and [logout] change it:
    every other view keeps the session and the state.  [register] with a
    valid form and a new email stores the user, answers with the
    redirect to the index and sets the state to logged in as that user;
    otherwise it leaves the world as it was.  [login] with a valid form
    and the email of a stored user whose password verifies answers with
    the redirect to the index and sets the state to logged in as that
    user; with a password that does not verify, an unknown email or an
    invalid form it leaves the world as it was.  [logout] sets the state
    to not logged in from every state. *)
Theorem authentication_state (ep : Endpoint) (req : Request) (w : World) :
  let r := view_function ep req w in
  (is_authenticated w = true ↔ ∃ uid, logged_in_as w = Some uid) ∧
  (is_authenticated w = false ↔ logged_in_as w = None) ∧
  (ep ≠ ep_register → ep ≠ ep_login → ep ≠ ep_logout →
     session (after r) = session w ∧ logged_in_as (after r) = logged_in_as w) ∧
  (ep = ep_register →
     let form := register_form req in
     let uid := next_id (user (db w)) in
     (validate_on_submit req (validate_register form) = true →
      ¬ email_registered (RegisterForm.email form) (user (db w)) →
      response r = Redirect (url_get_all_posts true) ∧
      user (db w) !! uid = None ∧
      (∃ u, user (db (after r)) !! uid = Some u ∧
            User.email u = RegisterForm.email form) ∧
      session (after r) = Some uid ∧
      logged_in_as (after r) = Some uid) ∧
     (validate_on_submit req (validate_register form) = false
      ∨ email_registered (RegisterForm.email form) (user (db w)) →
      after r = w)) ∧
  (ep = ep_login →
     let form := login_form req in
     (∀ uid u,
        unique_emails (user (db w)) →
        validate_on_submit req (validate_login form) = true →
        user (db w) !! uid = Some u →
        User.email u = LoginForm.email form →
        (check_password_hash (User.password u) (LoginForm.password form) = true →
         response r = Redirect (url_get_all_posts true) ∧
         session (after r) = Some uid ∧
         logged_in_as (after r) = Some uid ∧
         db (after r) = db w) ∧
        (check_password_hash (User.password u) (LoginForm.password form) = false →
         after r = w)) ∧
     (validate_on_submit req (validate_login form) = false
      ∨ ¬ email_registered (LoginForm.email form) (user (db w)) →
      after r = w)) ∧
  (ep = ep_logout →
     session (after r) = None ∧ logged_in_as (after r) = None ∧ db (after r) = db w).
Proof.
  intros r. subst r. split; [|split; [|split; [|split; [|split]]]].
  - rewrite is_authenticated_true. unfold logged_in_as. split.
    + intros (uid & u & ->). by exists uid.
    + intros [uid Hu]. destruct (current_user w) as [[k u]|]; [by exists k, u|done].
  - rewrite is_authenticated_false. unfold logged_in_as.
    by destruct (current_user w).
  - intros Hr Hl Ho. split.
    + by apply other_views_keep_login.
    + by apply keeps_login_logged_in_as, other_views_keep_login.
  - intros -> form uid. simpl. split.
    + intros Hvalid Hnew. unfold register, add_user. fold form. rewrite Hvalid.
      apply first_filter_by_email_None in Hnew as Hfirst. rewrite Hfirst. simpl.
      apply email_in_use_false in Hnew as Hfree. rewrite Hfree. simpl.
      split; [done|]. split; [apply next_id_fresh|].
      split; [eexists; split; [apply lookup_insert_eq|done]|].
      split; [done|].
      apply logged_in_as_Some. simpl. split; [done|].
      rewrite lookup_insert_eq. by eexists.
    + intros [Hinvalid|Hdup]; unfold register; fold form.
      * by rewrite Hinvalid.
      * destruct (validate_on_submit _ _); [|done].
        by destruct (first_filter_by_email_registered _ _ Hdup) as [? ->].
  - intros -> form. simpl. split.
    + intros uid u Huniq Hvalid Hu He.
      rewrite (login_registered req w uid u Huniq Hu Hvalid) by done.
      fold form. split; intros ->; [|done]. repeat split.
      apply logged_in_as_Some. simpl. split; [done|by eexists].
    + intros [Hinvalid|Hunknown]; unfold login; fold form.
      * by rewrite Hinvalid.
      * destruct (validate_on_submit _ _); [|done].
        apply first_filter_by_email_None in Hunknown. by rewrite Hunknown.
  - by intros ->.
Qed.

End Authentication.

Section AuthenticationWitness.
Import Sample.

Lemma store_unique_emails : unique_emails (user store).
Proof.
  intros i j u v Hi Hj He. simpl in Hi, Hj.
  apply lookup_insert_Some in Hi as [[<- <-]|[_ Hi]];
    apply lookup_insert_Some in Hj as [[<- <-]|[_ Hj]]; [done|..].
  - apply lookup_singleton_Some in Hj as [_ <-]. done.
  - apply lookup_singleton_Some in Hi as [_ <-]. done.
  - apply lookup_singleton_Some in Hi as [<- _].
    by apply lookup_singleton_Some in Hj as [<- _].
Qed.

Lemma authentication_state_witness :
  logged_in_as (after (login (login_request "ann@example.com" "secret") anonymous))
    = Some 1 ∧
  after (login (login_request "ann@example.com" "guess") as_bob) = as_bob ∧
  logged_in_as (after (register (register_request "eve@example.com" "pw" "Eve") as_bob))
    = Some 3 ∧
  logged_in_as (after (delete_post 1 blank as_ann)) = Some 1 ∧
  logged_in_as (after (logout blank as_ann)) = None.
Proof.
  split; [|split; [|split; [|split]]].
  - destruct (authentication_state ep_login (login_request "ann@example.com" "secret")
                anonymous) as (_ & _ & _ & _ & H & _).
    destruct H as [H _]; [reflexivity|].
    destruct (H 1 ann store_unique_emails) as [Hyes _]; [reflexivity..|].
    destruct Hyes as (_ & _ & Hl & _); [reflexivity|]. exact Hl.
  - destruct (authentication_state ep_login (login_request "ann@example.com" "guess")
                as_bob) as (_ & _ & _ & _ & H & _).
    destruct H as [H _]; [reflexivity|].
    destruct (H 1 ann store_unique_emails) as [_ Hno]; [reflexivity..|].
    by apply Hno.
  - destruct (authentication_state ep_register
                (register_request "eve@example.com" "pw" "Eve") as_bob)
      as (_ & _ & _ & H & _).
    destruct H as [H _]; [reflexivity|].
    destruct H as (_ & _ & _ & _ & Hl); [reflexivity | by apply email_in_use_false |].
    exact Hl.
  - destruct (authentication_state (ep_delete_post 1) blank as_ann) as (_ & _ & H & _).
    destruct H as [_ H]; [done..|]. exact H.
  - destruct (authentication_state ep_logout blank as_ann) as (_ & _ & _ & _ & _ & H).
    destruct H as (_ & H & _); [reflexivity|]. exact H.
Defined.

End AuthenticationWitness.

(** ** Editing and deleting posts *)

Lemma guard_cases (body : View) req w :
  login_required (admin_only body) req w = reply (Abort 401) w
  ∨ login_required (admin_only body) req w = reply (Abort 403) w
  ∨ ∃ u, current_user w = Some (1, u)
       ∧ login_required (admin_only body) req w = body req w.
Proof.
  destruct (current_user w) as [[uid u]|] eqn:Hu.
  - destruct (decide (uid = 1)) as [->|Hne].
    + right; right. exists u. split; [done|]. by apply (guard_admin _ _ _ u).
    + right; left. by apply (guard_not_admin _ _ _ uid u).
  - left. apply guard_anonymous. by apply is_authenticated_false.
Qed.

Section Editing.
Context {forms : Forms} {security : Security}.

(** C8. A successful [edit_post] (the redirect to the post) is made by
    the user 1 on an existing post whose author row exists; it replaces
    the post's title, subtitle, img_url and body by the submitted ones
    and the name of the post's author row by the submitted author, and
    keeps the post's key, date and author_id, the author's email and
    password, every other post, every other user, all comments and the
    session. *)
Theorem edit_post_frame (post_id : Z) (req : Request) (w : World) :
  response (edit_post post_id req w) = Redirect (url_show_post post_id) →
  let form := post_form req in
  let w' := after (edit_post post_id req w) in
  ∃ post aid author,
    blog_posts (db w) !! post_id = Some post ∧
    BlogPost.author_id post = Some aid ∧
    user (db w) !! aid = Some author ∧
    blog_posts (db w') !! post_id
      = Some (BlogPost.Row (BlogPost.author_id post) (CreatePostForm.title form)
                (CreatePostForm.subtitle form) (BlogPost.date post)
                (CreatePostForm.body form) (CreatePostForm.img_url form)) ∧
    user (db w') !! aid
      = Some (User.Row (User.email author) (User.password author)
                (CreatePostForm.author form)) ∧
    (∀ k, k ≠ post_id → blog_posts (db w') !! k = blog_posts (db w) !! k) ∧
    (∀ k, k ≠ aid → user (db w') !! k = user (db w) !! k) ∧
    comments (db w') = comments (db w) ∧
    session w' = session w ∧
    (∃ admin, current_user w = Some (1, admin)).
Proof.
  unfold edit_post.
  destruct (guard_cases (edit_post_body post_id) req w) as [->|[->|(admin & Hadmin & ->)]];
    [done..|].
  unfold edit_post_body, query_get, update_post.
  destruct (blog_posts (db w) !! post_id) as [post|] eqn:Hpost; [|done].
  destruct (author_of post (db w)) as [[aid author]|] eqn:Hauthor; [|done].
  apply author_of_Some in Hauthor as [Haid Hauthor].
  destruct (validate_on_submit _ _) eqn:Hvalid; [|done].
  rewrite (validate_on_submit_submitted _ _ Hvalid).
  destruct (_ && _); [done|]. simpl. intros _.
  exists post, aid, author. repeat split; try done.
  - by rewrite lookup_insert_eq.
  - by rewrite lookup_insert_eq.
  - intros k Hk. by rewrite lookup_insert_ne.
  - intros k Hk. by rewrite lookup_insert_ne.
  - by exists admin.
Qed.

(** C10. For a [post_id] that matches no row of [blog_posts],
    [show_post] signals no error: it renders the post page with no post
    (on a GET always; on a valid comment submission by an unauthenticated
    requester it redirects to login instead); [delete_post] and
    [edit_post] called by the user 1 with such a [post_id] raise an
    exception that nothing handles, not a 404. *)
Theorem missing_post (post_id : Z) (req : Request) (w : World) :
  blog_posts (db w) !! post_id = None →
  ((∃ logged_in,
      response (show_post post_id req w)
      = Render (post_html None (comment_form req) logged_in))
   ∨ (validate_on_submit req (validate_comment (comment_form req)) = true
      ∧ is_authenticated w = false
      ∧ response (show_post post_id req w) = Redirect url_login)) ∧
  (method req = GET →
     show_post post_id req w
     = reply (Render (post_html None (comment_form req) (is_authenticated w))) w) ∧
  (∀ admin, current_user w = Some (1, admin) →
     delete_post post_id req w = reply (Raise UnmappedInstanceError) w ∧
     edit_post post_id req w = reply (Raise AttributeError) w).
Proof.
  intros Hnone. split; [|split].
  - unfold show_post, query_get. rewrite Hnone.
    destruct (validate_on_submit _ _); [|left; by eexists].
    destruct (current_user w) as [[uid u]|] eqn:Hu; [left; by eexists|].
    right. by apply is_authenticated_false in Hu.
  - intros Hget. unfold show_post, query_get, validate_on_submit, is_submitted.
    by rewrite Hnone, Hget.
  - intros admin Hadmin. unfold delete_post, edit_post.
    rewrite !(guard_admin _ _ _ admin) by done.
    unfold delete_post_body, edit_post_body, query_get. by rewrite Hnone.
Qed.

End Editing.

Section EditingWitness.
Import Sample.

Lemma edit_post_frame_witness :
  comments (db (after (edit_post 1 (post_request "Hi" "Again" "http://img/2.png" "Anna" "Text")
                         as_ann)))
  = comments store.
Proof.
  destruct (edit_post_frame 1 (post_request "Hi" "Again" "http://img/2.png" "Anna" "Text")
              as_ann) as (post & aid & author & _ & _ & _ & _ & _ & _ & _ & H & _);
    [reflexivity|].
  exact H.
Defined.

Lemma missing_post_witness :
  delete_post 7 blank as_ann = reply (Raise UnmappedInstanceError) as_ann ∧
  edit_post 7 blank as_ann = reply (Raise AttributeError) as_ann.
Proof.
  destruct (missing_post 7 blank as_ann) as (_ & _ & H); [reflexivity|].
  exact (H ann eq_refl).
Defined.

End EditingWitness.

(** ** Registering an email twice *)

Section Duplicates.
Context {forms : Forms} {security : Security}.

(** C9. A valid registration form whose email is already in the [user]
    table creates no row and changes nothing: the world is as it was,
    nothing is committed, and the response is a redirect to the login
    page.  Consequently, in every store the application reaches, no two
    rows of [user] have the same email. *)
Theorem duplicate_email_rejected :
  (∀ req w,
     validate_on_submit req (validate_register (register_form req)) = true →
     email_registered (RegisterForm.email (register_form req)) (user (db w)) →
     response (register req w) = Redirect url_login ∧
     after (register req w) = w ∧
     commits (register req w) = 0%nat) ∧
  (∀ d, reachable d → unique_emails (user d)).
Proof.
  split.
  - intros req w Hvalid Hdup. unfold register. rewrite Hvalid.
    by destruct (first_filter_by_email_registered _ _ Hdup) as [? ->].
  - apply @reachable_unique_emails.
Qed.

End Duplicates.

Section DuplicatesWitness.
Import Sample.

Lemma duplicate_email_rejected_witness :
  after (register (register_request "bob@example.com" "x" "Robert") anonymous) = anonymous.
Proof.
  destruct duplicate_email_rejected as [H _].
  destruct (H (register_request "bob@example.com" "x" "Robert") anonymous)
    as (_ & Hafter & _); [reflexivity | | exact Hafter].
  exists 2, bob. split; reflexivity.
Defined.

End DuplicatesWitness.

(** * Further properties of the views *)

(** ** Titles *)


Section Titles.
Context {forms : Forms} {security : Security}.

Lemma guard_post_write (body : View) req w :
  post_write (blog_posts (db w)) (blog_posts (db (after (body req w)))) →
  post_write (blog_posts (db w))
    (blog_posts (db (after (login_required (admin_only body) req w)))).
Proof.
  intros Hbody.
  destruct (guard_cases body req w) as [->|[->|(u & _ & ->)]];
    [constructor | constructor | done].
Qed.

Lemma view_function_post_write ep req w :
  post_write (blog_posts (db w)) (blog_posts (db (after (view_function ep req w)))).
Proof.
  destruct ep; simpl; try apply guard_post_write; try constructor.
  - unfold register, add_user.
    destruct (validate_on_submit _ _); [|constructor].
    destruct (first _); [constructor|].
    destruct (email_in_use _ _); constructor.
  - unfold login.
    destruct (validate_on_submit _ _); [|constructor].
    destruct (first _) as [[uid u]|]; [|constructor].
    destruct (check_password_hash _ _); constructor.
  - unfold show_post.
    destruct (validate_on_submit _ _); [|constructor].
    destruct (current_user w) as [[uid u]|]; constructor.
  - unfold add_new_post_body, add_post.
    destruct (validate_on_submit _ _); [|constructor].
    destruct (current_user w) as [[uid u]|]; [|constructor].
    destruct (title_in_use _ _) eqn:Hused; [constructor|]. simpl.
    apply (post_write_insert _ (BlogPost.Row _ _ _ _ _ _)). simpl.
    by apply title_in_use_false.
  - unfold edit_post_body, update_post, query_get.
    destruct (blog_posts (db w) !! post_id) as [old|] eqn:Hold; [|constructor].
    destruct (author_of _ _) as [[aid a]|]; [|constructor].
    destruct (validate_on_submit _ _); [|constructor].
    destruct (bool_decide _ && _) eqn:Hconflict; [constructor|]. simpl.
    apply (post_write_update _ post_id old (BlogPost.Row _ _ _ _ _ _)); [done|]. simpl.
    apply andb_false_iff in Hconflict as [Hsame|Hfree].
    + left. apply bool_decide_eq_false in Hsame.
      by destruct (decide (CreatePostForm.title
           (if is_submitted req then post_form req
            else CreatePostForm.Data (BlogPost.title old) (BlogPost.subtitle old)
                   (BlogPost.img_url old) (User.name a) (BlogPost.body old))
         = BlogPost.title old)).
    + right. by apply title_in_use_false.
  - unfold delete_post_body, query_get.
    destruct (blog_posts (db w) !! post_id); constructor.
Qed.

Lemma dispatch_request_post_write ep req w :
  post_write (blog_posts (db w)) (blog_posts (db (after (dispatch_request ep req w)))).
Proof.
  unfold dispatch_request.
  destruct (negb (url_matches ep)); [constructor|].
  destruct (_ && _); [constructor|]. apply view_function_post_write.
Qed.

End Titles.

Section Posting.
Context {forms : Forms} {security : Security}.

(** X1. [add_new_post] called by the user 1 with a valid form whose
    title no post has: one commit stores exactly one new post, under a
    key that was free, with the submitted title, subtitle, body and
    img_url, the current user's id as [author_id] and today's date;
    [user], [comments] and the session are unchanged, the response is the
    redirect to the index, and the index then lists the new post. *)
Theorem add_new_post_creates (req : Request) (w : World) (admin : User.row) :
  current_user w = Some (1, admin) →
  validate_on_submit req (validate_post (post_form req)) = true →
  ¬ title_registered (CreatePostForm.title (post_form req)) (blog_posts (db w)) →
  let r := add_new_post req w in
  let form := post_form req in
  let pid := next_id (blog_posts (db w)) in
  let new_post :=
    BlogPost.Row (Some 1) (CreatePostForm.title form) (CreatePostForm.subtitle form)
      (today req) (CreatePostForm.body form) (CreatePostForm.img_url form) in
  response r = Redirect (url_get_all_posts false) ∧
  commits r = 1%nat ∧
  blog_posts (db w) !! pid = None ∧
  blog_posts (db (after r)) = <[pid := new_post]> (blog_posts (db w)) ∧
  user (db (after r)) = user (db w) ∧
  comments (db (after r)) = comments (db w) ∧
  session (after r) = session w ∧
  ∀ req', ∃ posts logged_in,
    response (get_all_posts req' (after r)) = Render (index_html posts logged_in) ∧
    (pid, new_post) ∈ posts.
Proof.
  intros Hadmin Hvalid Hfree. simpl. unfold add_new_post.
  rewrite (guard_admin _ _ _ admin) by done.
  unfold add_new_post_body, add_post. rewrite Hvalid, Hadmin. simpl.
  apply title_in_use_false in Hfree. rewrite Hfree. simpl.
  repeat split; [apply next_id_fresh|].
  intros req'. eexists _, _. split; [done|].
  apply query_all_complete. by rewrite lookup_insert_eq.
Qed.

(** X2. [add_new_post] called by the user 1 with a valid form whose
    title some post already has: the commit raises (the title column is
    unique), nothing is stored and the world is as it was. *)
Theorem add_new_post_duplicate_title (req : Request) (w : World) (admin : User.row) :
  current_user w = Some (1, admin) →
  validate_on_submit req (validate_post (post_form req)) = true →
  title_registered (CreatePostForm.title (post_form req)) (blog_posts (db w)) →
  add_new_post req w = Res (Raise IntegrityError) w 1 [].
Proof.
  intros Hadmin Hvalid Hused. unfold add_new_post.
  rewrite (guard_admin _ _ _ admin) by done.
  unfold add_new_post_body, add_post. rewrite Hvalid, Hadmin. simpl.
  apply title_in_use_true in Hused. by rewrite Hused.
Qed.

(** X3. In every store the application reaches, no two posts have the
    same title. *)
Theorem reachable_unique_titles (d : Database) :
  reachable d → unique_titles (blog_posts d).
Proof.
  induction 1 as [|d' ep req s _ IH].
  - intros i j p q Hi. simpl in Hi. by rewrite lookup_empty in Hi.
  - eapply post_write_unique_titles; [|exact IH].
    apply (dispatch_request_post_write ep req (Wd d' s)).
Qed.

(** X4. [delete_post] called by the user 1 on an existing post: one
    commit removes that post and only that post; no comment is removed,
    the comments on the post lose their [blogpost_id] and the others are
    untouched; [user] and the session are unchanged; the response is the
    redirect to the index.  Afterwards a GET of [show_post] for that id
    renders the page with no post, and a second [delete_post] raises. *)
Theorem delete_post_removes (post_id : Z) (req : Request) (w : World)
    (admin : User.row) (post : BlogPost.row) :
  current_user w = Some (1, admin) →
  blog_posts (db w) !! post_id = Some post →
  let r := delete_post post_id req w in
  response r = Redirect (url_get_all_posts true) ∧
  commits r = 1%nat ∧
  blog_posts (db (after r)) = delete post_id (blog_posts (db w)) ∧
  (∀ k c, comments (db w) !! k = Some c →
     comments (db (after r)) !! k
     = Some (if bool_decide (Comment.blogpost_id c = Some post_id)
             then Comment.Row (Comment.author_id c) (Comment.text c) None
             else c)) ∧
  (∀ k, comments (db w) !! k = None → comments (db (after r)) !! k = None) ∧
  user (db (after r)) = user (db w) ∧
  session (after r) = session w ∧
  (∀ req', method req' = GET →
     response (show_post post_id req' (after r))
     = Render (post_html None (comment_form req') true)) ∧
  (∀ req', delete_post post_id req' (after r)
           = reply (Raise UnmappedInstanceError) (after r)).
Proof.
  intros Hadmin Hpost. simpl.
  set (w' := Wd (remove_post post_id (db w)) (session w)).
  assert (delete_post post_id req w = Res (Redirect (url_get_all_posts true)) w' 1 [])
    as ->.
  { unfold delete_post. rewrite (guard_admin _ _ _ admin) by done.
    unfold delete_post_body, query_get. by rewrite Hpost. }
  assert (current_user w' = Some (1, admin)) as Hadmin'.
  { apply current_user_Some in Hadmin as [Hs Hu]. by apply current_user_Some. }
  simpl. repeat split.
  - intros k c Hk. by rewrite lookup_fmap, Hk.
  - intros k Hk. by rewrite lookup_fmap, Hk.
  - intros req' Hget. unfold show_post, validate_on_submit, is_submitted, query_get.
    rewrite Hget. simpl. rewrite lookup_delete_eq.
    assert (is_authenticated w' = true) as ->
      by (apply is_authenticated_true; eauto).
    done.
  - intros req'. unfold delete_post. rewrite (guard_admin _ _ _ admin) by done.
    unfold delete_post_body, query_get. simpl. by rewrite lookup_delete_eq.
Qed.

End Posting.

Section PostingWitness.
Import Sample.

Lemma add_new_post_creates_witness :
  blog_posts (db (after (add_new_post (post_request "News" "Sub" "http://img/3.png" "" "Body")
                           as_ann)))
  = <[2 := BlogPost.Row (Some 1) "News" "Sub" "August 01, 2021" "Body" "http://img/3.png"]>
      (blog_posts store).
Proof.
  destruct (add_new_post_creates (post_request "News" "Sub" "http://img/3.png" "" "Body")
              as_ann ann) as (_ & _ & _ & H & _);
    [reflexivity | reflexivity | by apply title_in_use_false | exact H].
Defined.

Lemma add_new_post_duplicate_title_witness :
  add_new_post (post_request "Hello" "Sub" "http://img/3.png" "" "Body") as_ann
  = Res (Raise IntegrityError) as_ann 1 [].
Proof.
  apply (add_new_post_duplicate_title _ as_ann ann); [reflexivity | reflexivity |].
  exists 1, hello. split; reflexivity.
Defined.

Lemma two_posts_reachable :
  reachable
    (db (after (dispatch_request ep_add_new_post
                  (post_request "More" "Sub" "http://img/4.png" "" "Body")
                  (Wd (db (after (dispatch_request ep_add_new_post
                                   (post_request "News" "Sub" "http://img/3.png" "" "Body")
                                   (Wd (db (after (dispatch_request ep_register
                                                    (register_request "eve@example.com" "pw" "Eve")
                                                    (Wd create_all None))))
                                       (Some 1)))))
                      (Some 1))))).
Proof. apply steps_step, steps_step, steps_step, steps_refl. Qed.

Lemma reachable_unique_titles_witness :
  let d :=
    db (after (dispatch_request ep_add_new_post
                 (post_request "More" "Sub" "http://img/4.png" "" "Body")
                 (Wd (db (after (dispatch_request ep_add_new_post
                                  (post_request "News" "Sub" "http://img/3.png" "" "Body")
                                  (Wd (db (after (dispatch_request ep_register
                                                   (register_request "eve@example.com" "pw" "Eve")
                                                   (Wd create_all None))))
                                      (Some 1)))))
                     (Some 1)))) in
  BlogPost.title <$> blog_posts d !! 1 = Some "News" ∧
  BlogPost.title <$> blog_posts d !! 2 = Some "More" ∧
  unique_titles (blog_posts d).
Proof.
  intros d. split; [reflexivity|]. split; [reflexivity|].
  exact (reachable_unique_titles d two_posts_reachable).
Defined.

Lemma delete_post_removes_witness :
  comments (db (after (delete_post 1 blank as_ann))) !! 1
  = Some (Comment.Row (Some 2) "Nice" None).
Proof.
  destruct (delete_post_removes 1 blank as_ann ann hello) as (_ & _ & _ & H & _);
    [reflexivity | reflexivity |].
  exact (H 1 nice eq_refl).
Defined.

End PostingWitness.

(** ** Logging in, flashes and safe requests *)

Section Sessions.
Context {forms : Forms} {security : Security}.

(** X5. A valid login form whose email no user has: [user.password] on
    no user raises the [AttributeError] that the view catches; the
    response is the redirect to login with the flash "No such email
    exists, please try again", nobody is logged in by it and the world is
    as it was. *)
Theorem login_unknown_email (req : Request) (w : World) :
  validate_on_submit req (validate_login (login_form req)) = true →
  ¬ email_registered (LoginForm.email (login_form req)) (user (db w)) →
  login req w
  = Res (Redirect url_login) w 0 ["No such email exists, please try again"].
Proof.
  intros Hvalid Hno. unfold login. rewrite Hvalid.
  apply first_filter_by_email_None in Hno. by rewrite Hno.
Qed.

(** X6. A view flashes at most one message, and only together with a
    redirect to the login page that leaves the world as it was and
    commits nothing. *)
Theorem flash_only_with_login_redirect (ep : Endpoint) (req : Request) (w : World) :
  let r := view_function ep req w in
  flashed r = [] ∨
  ∃ msg, flashed r = [msg] ∧ response r = Redirect url_login ∧ after r = w
         ∧ commits r = 0%nat.
Proof.
  assert (∀ body : View,
    (flashed (body req w) = [] ∨
     ∃ msg, flashed (body req w) = [msg] ∧ response (body req w) = Redirect url_login
            ∧ after (body req w) = w ∧ commits (body req w) = 0%nat) →
    let r := login_required (admin_only body) req w in
    flashed r = [] ∨
    ∃ msg, flashed r = [msg] ∧ response r = Redirect url_login ∧ after r = w
           ∧ commits r = 0%nat) as Hguard.
  { intros body Hbody. simpl.
    destruct (guard_cases body req w) as [->|[->|(u & _ & ->)]]; [by left..|done]. }
  destruct ep; simpl; try apply Hguard; try (by left).
  - unfold register, add_user.
    destruct (validate_on_submit _ _); [|by left].
    destruct (first _); [right; by eexists|].
    destruct (email_in_use _ _); by left.
  - unfold login.
    destruct (validate_on_submit _ _); [|by left].
    destruct (first _) as [[uid u]|]; [|right; by eexists].
    destruct (check_password_hash _ _); [by left|right; by eexists].
  - unfold show_post.
    destruct (validate_on_submit _ _); [|by left].
    destruct (current_user w) as [[uid u]|]; [by left|right; by eexists].
  - unfold add_new_post_body, add_post.
    destruct (validate_on_submit _ _); [|by left].
    destruct (current_user w) as [[uid u]|]; [|by left].
    destruct (title_in_use _ _); by left.
  - unfold edit_post_body, update_post.
    destruct (query_get _ _); [|by left].
    destruct (author_of _ _) as [[aid a]|]; [|by left].
    destruct (validate_on_submit _ _); [|by left].
    destruct (_ && _); by left.
  - unfold delete_post_body.
    destruct (query_get _ _); by left.
Qed.

(** X7. A GET request never writes to the store and never commits,
    except through [delete_post], and leaves the whole world (store and
    session) as it was except through [delete_post] and [logout]. *)
Theorem get_is_safe (ep : Endpoint) (req : Request) (w : World) :
  method req = GET →
  (∀ post_id, ep ≠ ep_delete_post post_id) →
  let r := dispatch_request ep req w in
  db (after r) = db w ∧ commits r = 0%nat ∧ (ep ≠ ep_logout → after r = w).
Proof.
  intros Hget Hdel. simpl.
  assert (∀ valid, validate_on_submit req valid = false) as Hvalid.
  { intros valid. unfold validate_on_submit, is_submitted. by rewrite Hget. }
  assert (∀ body : View,
    after (body req w) = w ∧ commits (body req w) = 0%nat →
    after (login_required (admin_only body) req w) = w
    ∧ commits (login_required (admin_only body) req w) = 0%nat) as Hguard.
  { intros body Hbody.
    destruct (guard_cases body req w) as [->|[->|(u & _ & ->)]]; done. }
  unfold dispatch_request.
  destruct (negb (url_matches ep)); [done|].
  destruct (_ && _); [done|].
  destruct ep; simpl; try done.
  - unfold register. by rewrite Hvalid.
  - unfold login. by rewrite Hvalid.
  - unfold show_post. by rewrite Hvalid.
  - unfold add_new_post.
    destruct (Hguard add_new_post_body) as [-> ->]; [|done].
    unfold add_new_post_body. by rewrite Hvalid.
  - unfold edit_post.
    destruct (Hguard (edit_post_body post_id)) as [-> ->]; [|done].
    unfold edit_post_body.
    destruct (query_get _ _); [|done].
    destruct (author_of _ _) as [[aid a]|]; [|done].
    by rewrite Hvalid.
  - by destruct (Hdel post_id).
Qed.

End Sessions.

Section SessionsWitness.
Import Sample.

Lemma login_unknown_email_witness :
  login (login_request "nobody@example.com" "x") anonymous
  = Res (Redirect url_login) anonymous 0 ["No such email exists, please try again"].
Proof.
  apply login_unknown_email; [reflexivity|].
  by apply email_in_use_false.
Defined.

Lemma get_is_safe_witness :
  after (dispatch_request (ep_edit_post 1) blank as_ann) = as_ann.
Proof.
  destruct (get_is_safe (ep_edit_post 1) blank as_ann) as (_ & _ & H);
    [reflexivity | done | by apply H].
Defined.

End SessionsWitness.

(** ** Cookies and accounts *)

Lemma write_user_keys d d' k :
  write d d' → is_Some (user d !! k) → is_Some (user d' !! k).
Proof.
  intros Hw [u Hu]. destruct (write_same_account d d' k u Hw Hu) as (u' & Hu' & _).
  by eexists.
Qed.

Lemma write_same_comment d d' k c :
  write d d' → comments d !! k = Some c →
  ∃ c', comments d' !! k = Some c' ∧ Comment.text c' = Comment.text c
        ∧ Comment.author_id c' = Comment.author_id c
        ∧ (Comment.blogpost_id c' = Comment.blogpost_id c ∨ Comment.blogpost_id c' = None).
Proof.
  intros Hw Hk. destruct Hw; simpl; try (exists c; by eauto).
  - exists c. split; [|by eauto]. rewrite lookup_insert_ne; [done|].
    intros <-. by rewrite next_id_fresh in Hk.
  - exists (detach post_id c). rewrite lookup_fmap, Hk. split; [done|].
    unfold detach. case_bool_decide; simpl; eauto.
Qed.

Section Accounts.
Context {forms : Forms} {security : Security}.

(** X8. A session cookie that names an id with no row in [user] is the
    anonymous user: [load_user] finds nothing, so the requester is not
    authenticated, the three admin views answer 401, and a valid comment
    submission is redirected to login with nothing stored. *)
Theorem stale_cookie_is_anonymous (req : Request) (w : World) (uid : Z) :
  session w = Some uid →
  load_user uid (db w) = None →
  current_user w = None ∧
  is_authenticated w = false ∧
  add_new_post req w = reply (Abort 401) w ∧
  (∀ post_id, edit_post post_id req w = reply (Abort 401) w) ∧
  (∀ post_id, delete_post post_id req w = reply (Abort 401) w) ∧
  (∀ post_id, validate_on_submit req (validate_comment (comment_form req)) = true →
     response (show_post post_id req w) = Redirect url_login
     ∧ after (show_post post_id req w) = w).
Proof.
  intros Hs Hload.
  assert (current_user w = None) as Hnone.
  { unfold current_user. rewrite Hs. simpl. by rewrite Hload. }
  assert (is_authenticated w = false) as Hanon by by apply is_authenticated_false.
  repeat split; try done.
  - by apply guard_anonymous.
  - intros post_id. by apply guard_anonymous.
  - intros post_id. by apply guard_anonymous.
  - unfold show_post. by rewrite H, Hnone.
  - unfold show_post. by rewrite H, Hnone.
Qed.

(** X9. The application only hands out cookies that name a stored user:
    if the session of a request names no user or a user of the store, so
    does the session after the request, for every endpoint. *)
Theorem session_names_a_user (ep : Endpoint) (req : Request) (w : World) :
  session_ok w → session_ok (after (dispatch_request ep req w)).
Proof.
  intros Hok. unfold dispatch_request.
  destruct (negb (url_matches ep)); [done|].
  destruct (_ && _); [done|].
  assert (∀ ep', ep' = ep → ep' ≠ ep_register → ep' ≠ ep_login → ep' ≠ ep_logout →
            session_ok (after (view_function ep req w))) as Hother.
  { intros ep' -> Hr Hl Ho.
    destruct (other_views_keep_login ep req w Hr Hl Ho) as [Hs Hk].
    intros uid Huid. apply Hk, Hok. congruence. }
  destruct ep; try (by eapply Hother); simpl.
  - unfold register, add_user.
    destruct (validate_on_submit _ _); [|done].
    destruct (first _); [done|].
    destruct (email_in_use _ _); [done|]. simpl.
    intros uid [= <-]. simpl. rewrite lookup_insert_eq. by eexists.
  - unfold login.
    destruct (validate_on_submit _ _); [|done].
    destruct (first _) as [[uid u]|] eqn:Hfirst; [|done].
    apply first_filter_by_email_Some in Hfirst as [Hu _].
    destruct (check_password_hash _ _); [|done].
    intros uid' [= <-]. simpl. by eexists.
  - by intros uid.
Qed.

(** X10. No request deletes a user or a comment, and no request changes
    an email, a password, the text of a comment or its author: a row of
    [user] or [comments] is still there, with these columns as they
    were, in every store the application reaches later.  The
    [blogpost_id] of a comment stays or becomes NULL. *)
Theorem accounts_and_comments_persist (d d' : Database) :
  steps d d' →
  (∀ k u, user d !! k = Some u →
     ∃ u', user d' !! k = Some u' ∧ User.email u' = User.email u
           ∧ User.password u' = User.password u) ∧
  (∀ k c, comments d !! k = Some c →
     ∃ c', comments d' !! k = Some c' ∧ Comment.text c' = Comment.text c
           ∧ Comment.author_id c' = Comment.author_id c
           ∧ (Comment.blogpost_id c' = Comment.blogpost_id c
              ∨ Comment.blogpost_id c' = None)).
Proof.
  intros Hsteps. split.
  - intros k u Hk. by apply (steps_same_account d d' k u Hsteps).
  - induction Hsteps as [|d' ep req s _ IH]; intros k c Hk; [exists c; by eauto|].
    destruct (IH k c Hk) as (c1 & Hk1 & Ht1 & Ha1 & Hb1).
    destruct (write_same_comment _ _ k c1 (dispatch_request_write ep req (Wd d' s)) Hk1)
      as (c2 & Hk2 & Ht2 & Ha2 & Hb2).
    exists c2. repeat split; [done|congruence|congruence|].
    destruct Hb2 as [Hb2|Hb2]; [|by right].
    destruct Hb1 as [Hb1|Hb1]; [left|right]; congruence.
Qed.

(** X11. The administrator is the first user ever registered: a
    successful registration into an empty [user] table stores the user
    under the id 1 and logs that user in, and in every store the
    application reaches the [user] table is empty or has the user 1. *)
Theorem first_user_is_admin :
  (∀ req w,
     user (db w) = ∅ →
     response (register req w) = Redirect (url_get_all_posts true) →
     ∃ u, current_user (after (register req w)) = Some (1, u)
          ∧ User.email u = RegisterForm.email (register_form req)) ∧
  (∀ d, reachable d → user d = ∅ ∨ is_Some (user d !! 1)).
Proof.
  split.
  - intros req w Hempty Hok.
    destruct (register_success req w Hok) as [_ ->].
    rewrite Hempty. eexists. split.
    + apply current_user_Some. simpl. split; [done|].
      by rewrite lookup_insert_eq.
    + done.
  - induction 1 as [|d' ep req s _ IH]; [by left|].
    pose proof (dispatch_request_write ep req (Wd d' s)) as Hw. simpl in Hw.
    destruct IH as [Hempty|Hone]; [|right; by eapply write_user_keys].
    destruct Hw as [|u Hnew| | |post_id p p' aid a a' _ _ Ha|]; simpl; try (by left).
    + right. rewrite Hempty.
      change (next_id (∅ : gmap Z User.row)) with 1. rewrite lookup_insert_eq. by eexists.
    + rewrite Hempty in Ha. by rewrite lookup_empty in Ha.
Qed.

End Accounts.

Section AccountsWitness.
Import Sample.

Lemma stale_cookie_is_anonymous_witness :
  delete_post 1 blank (Wd store (Some 9)) = reply (Abort 401) (Wd store (Some 9)).
Proof.
  destruct (stale_cookie_is_anonymous blank (Wd store (Some 9)) 9)
    as (_ & _ & _ & _ & H & _); [reflexivity | reflexivity |].
  exact (H 1).
Defined.

Lemma session_names_a_user_witness :
  session_ok (after (dispatch_request ep_login (login_request "ann@example.com" "secret")
                       as_bob)).
Proof.
  apply session_names_a_user. intros uid [= <-]. by eexists.
Defined.

Lemma accounts_and_comments_persist_witness :
  ∃ u', user (db (after (dispatch_request (ep_edit_post 1)
                           (post_request "Hi" "Again" "http://img/2.png" "Anna" "Text")
                           as_ann))) !! 1 = Some u'
        ∧ User.email u' = "ann@example.com"
        ∧ User.password u' = "pbkdf2:sha256$secret".
Proof.
  destruct (accounts_and_comments_persist store
              (db (after (dispatch_request (ep_edit_post 1)
                            (post_request "Hi" "Again" "http://img/2.png" "Anna" "Text")
                            as_ann)))) as [H _].
  { apply (steps_step store store (ep_edit_post 1) _ (Some 1)), steps_refl. }
  exact (H 1 ann eq_refl).
Defined.

Lemma first_user_is_admin_witness :
  ∃ u, current_user (after (register (register_request "eve@example.com" "pw" "Eve")
                              (Wd create_all None))) = Some (1, u)
       ∧ User.email u = "eve@example.com".
Proof.
  destruct first_user_is_admin as [H _].
  exact (H (register_request "eve@example.com" "pw" "Eve") (Wd create_all None)
           eq_refl eq_refl).
Defined.

End AccountsWitness.

(** ** Posts in the stores the application reaches *)

Lemma write_posts_by_user_1 d d' :
  write d d' →
  (∀ k p, blog_posts d !! k = Some p →
     BlogPost.author_id p = Some 1 ∧ is_Some (user d !! 1)) →
  ∀ k p, blog_posts d' !! k = Some p →
    BlogPost.author_id p = Some 1 ∧ is_Some (user d' !! 1).
Proof.
  intros Hw Hinv k q Hk.
  destruct Hw as [|u Hnew|uid c Hu Ha Hb|p Hp Hone|post_id p p' aid a a' Hp Haid Ha Hid _ _ _|post_id];
    simpl in *.
  - eauto.
  - destruct (Hinv k q Hk) as [? ?]. split; [done|]. by apply is_Some_insert_mono.
  - eauto.
  - apply lookup_insert_Some in Hk as [[_ <-]|[_ Hk]]; [done|eauto].
  - apply lookup_insert_Some in Hk as [[_ <-]|[_ Hk]].
    + destruct (Hinv post_id p Hp) as [? ?]. split; [congruence|].
      by apply is_Some_insert_mono.
    + destruct (Hinv k q Hk) as [? ?]. split; [done|]. by apply is_Some_insert_mono.
  - apply lookup_delete_Some in Hk as [_ Hk]. eauto.
Qed.

Lemma write_keys_positive d d' :
  write d d' →
  keys_positive (blog_posts d) ∧ keys_positive (user d) ∧ keys_positive (comments d) →
  keys_positive (blog_posts d') ∧ keys_positive (user d') ∧ keys_positive (comments d').
Proof.
  intros Hw (Hp & Hu & Hc).
  assert (∀ (A : Type) (t : gmap Z A) i x,
            keys_positive t → 1 ≤ i → keys_positive (<[i := x]> t)) as Hins.
  { intros A t i x Ht Hi k y Hk.
    apply lookup_insert_Some in Hk as [[<- _]|[_ Hk]]; [done|]. by eapply Ht. }
  destruct Hw as [|u Hnew|uid c _ _ _|p _ _|post_id p p' aid a a' Hpost _ Ha _ _ _ _|post_id];
    simpl; repeat split; try done.
  - apply Hins; [done | apply next_id_positive].
  - apply Hins; [done | apply next_id_positive].
  - apply Hins; [done | apply next_id_positive].
  - apply Hins; [done | by eapply Hp].
  - apply Hins; [done | by eapply Hu].
  - intros k q Hk. apply lookup_delete_Some in Hk as [_ Hk]. by eapply Hp.
  - intros k c Hk. rewrite lookup_fmap in Hk.
    destruct (comments d !! k) eqn:E; [|done]. by eapply Hc.
Qed.

Section ReachablePosts.
Context {forms : Forms} {security : Security}.

Lemma steps_posts_by_user_1 (d : Database) :
  reachable d →
  ∀ k p, blog_posts d !! k = Some p →
    BlogPost.author_id p = Some 1 ∧ is_Some (user d !! 1).
Proof.
  induction 1 as [|d' ep req s _ IH].
  - intros k p Hk. simpl in Hk. by rewrite lookup_empty in Hk.
  - eapply write_posts_by_user_1; [|exact IH].
    apply (dispatch_request_write ep req (Wd d' s)).
Qed.

(** X12. In every store the application reaches, every post has the
    user 1 as author and the row of the user 1 exists: only the
    administrator's posts are ever stored. *)
Theorem posts_are_by_user_1 (d : Database) :
  reachable d →
  ∀ k p, blog_posts d !! k = Some p →
    BlogPost.author_id p = Some 1 ∧ is_Some (user d !! 1).
Proof. apply steps_posts_by_user_1. Qed.

(** X13. In every store the application reaches, the ids of all three
    tables start at 1, so the id of every stored post is matched by the
    [<int:post_id>] rules of [show_post], [edit_post] and
    [delete_post]. *)
Theorem stored_ids_are_routable (d : Database) :
  reachable d →
  keys_positive (blog_posts d) ∧ keys_positive (user d) ∧ keys_positive (comments d) ∧
  ∀ k p, blog_posts d !! k = Some p →
    url_matches (ep_show_post k) = true ∧ url_matches (ep_edit_post k) = true
    ∧ url_matches (ep_delete_post k) = true.
Proof.
  intros Hd.
  assert (keys_positive (blog_posts d) ∧ keys_positive (user d)
          ∧ keys_positive (comments d)) as (Hp & Hu & Hc).
  { induction Hd as [|d' ep req s _ IH].
    - repeat split; intros k x Hk; simpl in Hk; by rewrite lookup_empty in Hk.
    - eapply write_keys_positive; [|exact IH].
      apply (dispatch_request_write ep req (Wd d' s)). }
  repeat split; try done; simpl; apply bool_decide_eq_true;
    pose proof (Hp k p H); lia.
Qed.

(** X14. The views without decorators never fail: [get_all_posts],
    [register], [login], [logout], [show_post], [about] and [contact]
    answer every request with a rendered page or a redirect, never with
    an abort or an exception; in particular the uniqueness of [email]
    never makes the commit of [register] raise. *)
Theorem public_views_never_fail (ep : Endpoint) (req : Request) (w : World) :
  public ep = true →
  (∃ page, response (view_function ep req w) = Render page)
  ∨ (∃ url, response (view_function ep req w) = Redirect url).
Proof.
  intros Hpublic. destruct ep; try done; simpl.
  - left. by eexists.
  - unfold register, add_user.
    destruct (validate_on_submit _ _); [|left; by eexists].
    destruct (first _) eqn:Hfirst; [right; by eexists|].
    apply first_filter_by_email_None, email_in_use_false in Hfirst.
    simpl. rewrite Hfirst. right. by eexists.
  - unfold login.
    destruct (validate_on_submit _ _); [|left; by eexists].
    destruct (first _) as [[uid u]|]; [|right; by eexists].
    destruct (check_password_hash _ _); right; by eexists.
  - right. by eexists.
  - unfold show_post.
    destruct (validate_on_submit _ _); [|left; by eexists].
    destruct (current_user w) as [[uid u]|]; [left|right]; by eexists.
  - left. by eexists.
  - left. by eexists.
Qed.

(** X15. [edit_post] called by the user 1 on an existing post, in a
    store the application reaches: the post's author is the user 1, so
    [post.author.name] never fails.  A GET renders the form filled with
    the post's title, subtitle, img_url and body and the administrator's
    name, and changes nothing; a valid submission either raises at the
    commit, when the title changed to one another post has, leaving the
    world as it was, or else redirects to the post after one commit. *)
Theorem edit_post_by_admin (post_id : Z) (req : Request) (w : World)
    (admin : User.row) (post : BlogPost.row) :
  reachable (db w) →
  current_user w = Some (1, admin) →
  blog_posts (db w) !! post_id = Some post →
  let r := edit_post post_id req w in
  let form := post_form req in
  let prefilled :=
    CreatePostForm.Data (BlogPost.title post) (BlogPost.subtitle post)
      (BlogPost.img_url post) (User.name admin) (BlogPost.body post) in
  (method req = GET → r = reply (Render (make_post_html prefilled true)) w) ∧
  (validate_on_submit req (validate_post form) = true →
     (CreatePostForm.title form ≠ BlogPost.title post →
      title_registered (CreatePostForm.title form) (blog_posts (db w)) →
      r = Res (Raise IntegrityError) w 1 []) ∧
     (CreatePostForm.title form = BlogPost.title post
      ∨ ¬ title_registered (CreatePostForm.title form) (blog_posts (db w)) →
      response r = Redirect (url_show_post post_id) ∧ commits r = 1%nat)) ∧
  response r ≠ Raise AttributeError.
Proof.
  intros Hreach Hadmin Hpost. simpl.
  destruct (steps_posts_by_user_1 (db w) Hreach post_id post Hpost) as [Hby _].
  assert (author_of post (db w) = Some (1, admin)) as Hauthor.
  { apply author_of_Some. split; [done|]. by apply current_user_Some in Hadmin as [_ ?]. }
  unfold edit_post. rewrite (guard_admin _ _ _ admin) by done.
  unfold edit_post_body, query_get. rewrite Hpost, Hauthor.
  rewrite edit_form_validate_on_submit. split; [|split].
  - intros Hget. unfold validate_on_submit, is_submitted. by rewrite Hget.
  - intros Hvalid. rewrite Hvalid, (validate_on_submit_submitted _ _ Hvalid).
    unfold update_post. simpl. split.
    + intros Hchanged Hused. apply title_in_use_true in Hused.
      by rewrite Hused, bool_decide_eq_true_2.
    + intros [Hsame|Hfree].
      * by rewrite bool_decide_eq_false_2 by (by intros ?).
      * apply title_in_use_false in Hfree. rewrite Hfree, andb_false_r. done.
  - destruct (validate_on_submit _ _); [|done].
    unfold update_post. by destruct (_ && _).
Qed.

End ReachablePosts.

Section ReachablePostsWitness.
Import Sample.

Lemma registered_and_posted :
  reachable
    (db (after (dispatch_request ep_add_new_post
                  (post_request "News" "Sub" "http://img/3.png" "" "Body")
                  (Wd (db (after (dispatch_request ep_register
                                   (register_request "eve@example.com" "pw" "Eve")
                                   (Wd create_all None))))
                      (Some 1))))).
Proof. apply steps_step, steps_step, steps_refl. Qed.

Lemma posts_are_by_user_1_witness :
  BlogPost.author_id
    (BlogPost.Row (Some 1) "News" "Sub" "August 01, 2021" "Body" "http://img/3.png")
  = Some 1.
Proof.
  exact (proj1 (posts_are_by_user_1 _ registered_and_posted 1 _ eq_refl)).
Defined.

Lemma stored_ids_are_routable_witness : url_matches (ep_edit_post 1) = true.
Proof.
  destruct (stored_ids_are_routable _ registered_and_posted) as (_ & _ & _ & H).
  destruct (H 1 _ eq_refl) as (_ & He & _). exact He.
Defined.

Lemma public_views_never_fail_witness :
  (∃ page, response (register (register_request "bob@example.com" "x" "B") anonymous)
           = Render page)
  ∨ (∃ url, response (register (register_request "bob@example.com" "x" "B") anonymous)
            = Redirect url).
Proof.
  exact (public_views_never_fail ep_register
           (register_request "bob@example.com" "x" "B") anonymous eq_refl).
Defined.

Lemma edit_post_by_admin_witness :
  response
    (edit_post 1 (post_request "News" "Sub2" "http://img/4.png" "Eve" "Body2")
       (Wd (db (after (dispatch_request ep_add_new_post
                         (post_request "News" "Sub" "http://img/3.png" "" "Body")
                         (Wd (db (after (dispatch_request ep_register
                                          (register_request "eve@example.com" "pw" "Eve")
                                          (Wd create_all None))))
                             (Some 1)))))
           (Some 1)))
  = Redirect (url_show_post 1).
Proof.
  destruct (edit_post_by_admin 1 (post_request "News" "Sub2" "http://img/4.png" "Eve" "Body2")
              (Wd _ (Some 1)) _ _ registered_and_posted eq_refl eq_refl) as (_ & H & _).
  destruct H as [_ H]; [reflexivity|].
  destruct H as [H _]; [by left | exact H].
Defined.

End ReachablePostsWitness.

(** ** Registering again, and logging out *)

Section Again.
Context {forms : Forms} {security : Security}.

(** X16. An email is registered once and for all: after a successful
    registration, in every store the application reaches from there,
    every valid registration form with the same email is answered by the
    redirect to login with the flash "You are already registered. Please
    log in", and nothing is stored or committed. *)
Theorem registered_email_stays_taken (req : Request) (w : World) :
  response (register req w) = Redirect (url_get_all_posts true) →
  ∀ d' req' s',
    steps (db (after (register req w))) d' →
    validate_on_submit req' (validate_register (register_form req')) = true →
    RegisterForm.email (register_form req') = RegisterForm.email (register_form req) →
    register req' (Wd d' s')
    = Res (Redirect url_login) (Wd d' s') 0 ["You are already registered. Please log in"].
Proof.
  intros Hok d' req' s' Hsteps Hvalid Hemail.
  destruct (register_success req w Hok) as [_ Hreg]. rewrite Hreg in Hsteps.
  simpl in Hsteps.
  destruct (steps_same_account _ d' (next_id (user (db w)))
              (User.Row (RegisterForm.email (register_form req))
                 (generate_password_hash (RegisterForm.password (register_form req))
                    "pbkdf2:sha256" 8 (entropy req))
                 (RegisterForm.name (register_form req))) Hsteps)
    as (u' & Hu' & He & _).
  { simpl. apply lookup_insert_eq. }
  simpl in He.
  assert (email_registered (RegisterForm.email (register_form req')) (user d')) as Hdup.
  { exists (next_id (user (db w))), u'. split; [done|congruence]. }
  unfold register. rewrite Hvalid. simpl.
  by destruct (first_filter_by_email_registered _ _ Hdup) as [? ->].
Qed.

(** X17. After [logout], whoever was logged in, the requester is
    anonymous: the store is untouched, the three admin views answer 401
    and a valid comment submission is redirected to login. *)
Theorem logout_ends_access (req : Request) (w : World) :
  let w' := after (logout req w) in
  db w' = db w ∧
  is_authenticated w' = false ∧
  (∀ req', add_new_post req' w' = reply (Abort 401) w') ∧
  (∀ req' post_id, edit_post post_id req' w' = reply (Abort 401) w') ∧
  (∀ req' post_id, delete_post post_id req' w' = reply (Abort 401) w') ∧
  (∀ req' post_id,
     validate_on_submit req' (validate_comment (comment_form req')) = true →
     response (show_post post_id req' w') = Redirect url_login
     ∧ after (show_post post_id req' w') = w').
Proof.
  simpl. repeat split; try (intros; by apply guard_anonymous).
  - unfold show_post. by rewrite H.
  - unfold show_post. by rewrite H.
Qed.

End Again.

Section AgainWitness.
Import Sample.

Lemma registered_email_stays_taken_witness :
  register (register_request "eve@example.com" "other" "Eva")
    (Wd (db (after (register (register_request "eve@example.com" "pw" "Eve")
                      (Wd create_all None)))) None)
  = Res (Redirect url_login)
      (Wd (db (after (register (register_request "eve@example.com" "pw" "Eve")
                        (Wd create_all None)))) None)
      0 ["You are already registered. Please log in"].
Proof.
  apply (registered_email_stays_taken (register_request "eve@example.com" "pw" "Eve")
           (Wd create_all None));
    [reflexivity | apply steps_refl | reflexivity | reflexivity].
Defined.

Lemma logout_ends_access_witness :
  response (show_post 1 (comment_request "Hi") (after (logout blank as_ann)))
  = Redirect url_login.
Proof.
  destruct (logout_ends_access blank as_ann) as (_ & _ & _ & _ & _ & H).
  destruct (H (comment_request "Hi") 1) as [Hr _]; [reflexivity | exact Hr].
Defined.

End AgainWitness.
